(** * BlueskyOauthTest: session-gated access to the lesson collection

    A shallow embedding of [src/BlueskyOauthTest.tsx]: the React component
    [BlueskyApp], its state, and its handlers ([initAuth], [handleLogin],
    [handleLogout], [saveLesson], [fetchLessons], [deleteLesson], and the
    record-key extraction of the list rendering).

    The OAuth client, the repository API and the clock are external
    libraries; they appear as an interface ([Backend]) the handlers are
    written against.  Handlers are asynchronous functions: here they are
    computations threading a [World] and settling either with a value or
    with a thrown error. *)

From Stdlib Require Import ZArith Ascii String.
From stdpp Require Import base option list strings gmap pretty.

Local Open Scope string_scope.
Local Open Scope Z_scope.

(** ** Strings: [String.prototype.split] and [Array.prototype.pop] *)

Module Js.

(** [s.split(sep)] for a one-character separator.  The result is never the
    empty array: a string without separator yields the one-element array
    holding the string itself. *)
Fixpoint split (sep : ascii) (s : string) : list string :=
  match s with
  | EmptyString => [EmptyString]
  | String c rest =>
      if Ascii.eqb c sep then EmptyString :: split sep rest
      else match split sep rest with
           | seg :: segs => String c seg :: segs
           | [] => [String c EmptyString]
           end
  end.

(** [a.pop()] as an expression: the last element, [undefined] (here [None])
    on the empty array. *)
Fixpoint pop {A : Type} (a : list A) : option A :=
  match a with
  | [] => None
  | [x] => Some x
  | _ :: rest => pop rest
  end.

(** A string holds no occurrence of the character [c]. *)
Fixpoint lacks (c : ascii) (s : string) : bool :=
  match s with
  | EmptyString => true
  | String d rest => negb (Ascii.eqb d c) && lacks c rest
  end.

End Js.

(** Your custom collection namespace *)
Definition LESSON_COLLECTION : string := "app.piano.user.lesson".

(** The expression of the list rendering,
    [record.uri.split("/").pop()]. *)
Definition rkey_of_uri (uri : string) : option string :=
  Js.pop (Js.split "/" uri).

(** ** Data *)

(** Values stored in a record body.  [score] is a JS number; the component
    only builds it with [Math.floor] and passes it on, so integers carry it. *)
Inductive JsValue : Type :=
  | JStr (s : string)
  | JNum (n : Z).

(** A plain object: its own properties in insertion order. *)
Definition JsObject : Type := list (string * JsValue).

(** Writing property [k] of an object literal under construction: an
    existing property keeps its position and takes the new value, a new one
    goes last. *)
Fixpoint set_prop (k : string) (v : JsValue) (o : JsObject) : JsObject :=
  match o with
  | [] => [(k, v)]
  | (k', v') :: rest =>
      if String.eqb k' k then (k, v) :: rest else (k', v') :: set_prop k v rest
  end.

(** [{ ...o, ...src }]: the properties of [src] written one by one. *)
Definition spread (src : JsObject) (o : JsObject) : JsObject :=
  foldl (λ acc kv, set_prop kv.1 kv.2 acc) o src.

(** Define your custom record schema *)
Record LessonRecord : Type := {
  lessonId : string;
  completedAt : string;
  score : Z;
  notes : option string;
}.

(** The own properties of a [LessonRecord] value, as [addTestLesson]
    writes them; the optional [notes] is there only when given. *)
Definition lesson_props (l : LessonRecord) : JsObject :=
  ([("lessonId", JStr (lessonId l));
    ("completedAt", JStr (completedAt l));
    ("score", JNum (score l))]
   ++ match notes l with Some n => [("notes", JStr n)] | None => [] end)%list.

(** The [record] argument of [createRecord] in [saveLesson]:
    [{ $type: LESSON_COLLECTION, ...lessonData, createdAt: <now> }]. *)
Definition lesson_body (lessonData : LessonRecord) (createdAt : string)
  : JsObject :=
  set_prop "createdAt" (JStr createdAt)
    (spread (lesson_props lessonData)
       (set_prop "$type" (JStr LESSON_COLLECTION) [])).

(** An [OAuthSession]: the owner's DID and the token and key material the
    OAuth client keeps for it (never read by the component). *)
Record OAuthSession : Type := {
  did : string;
  material : string;
}.

(** [new Agent(session)] and [new Agent({ service })]. *)
Inductive Agent : Type :=
  | Agent_of_session (s : OAuthSession)
  | Agent_of_service (service : string).

Record ProfileViewDetailed : Type := {
  profile_did : string;
  handle : string;
}.

(** An element of [response.data.records]. *)
Record RepoRecord : Type := {
  uri : string;
  cid : string;
  value : JsObject;
}.

(** [response.data] of [createRecord]. *)
Record CreateResponse : Type := {
  data_uri : string;
  data_cid : string;
}.

(** The result of [client.init()], when there is one. *)
Record InitResult : Type := {
  init_session : OAuthSession;
  init_state : option string;
}.

(** A thrown value; the component reads its [message] only. *)
Record JsError : Type := { message : string }.

(** How a promise settles. *)
Inductive Settled (A : Type) : Type :=
  | Fulfilled (a : A)
  | Rejected (e : JsError).
Arguments Fulfilled {A} a.
Arguments Rejected {A} e.

(** The requests the component sends through an [Agent]. *)
Inductive Request : Type :=
  | CreateRecord (via : Agent) (repo collection : string) (record : JsObject)
  | ListRecords (via : Agent) (repo collection : string) (limit : Z)
  | DeleteRecord (via : Agent) (repo collection rkey : string)
  | GetProfile (via : Agent) (actor : string).

(** A line of the console: [console.error(msg)], [console.error(msg, err)]
    and [console.log(msg, ...)], the logged objects left out. *)
Inductive ConsoleEntry : Type :=
  | ConsoleError (msg : string) (arg : option JsError)
  | ConsoleLog (msg : string).

(** The React state of [BlueskyApp]. *)
Record Component : Type := {
  agent : option Agent;
  session : option OAuthSession;
  profile : option ProfileViewDetailed;
  lessons : list RepoRecord;
  identifier : string;
  loading : bool;
  error : string;
}.

(** The [useState] initial values. *)
Definition initial_component : Component := {|
  agent := None;
  session := None;
  profile := None;
  lessons := [];
  identifier := "whoisryosuke.bsky.social";
  loading := false;
  error := "";
|}.

(** ** The external libraries

    [env] is the state of everything outside the component: the repository
    server, what the OAuth client persisted, the clock.  Each operation
    settles and leaves a new [env].  [client_init] may read [localStorage]. *)
Class Backend : Type := {
  env : Type;
  client_init :
    gmap string string → env → Settled (option InitResult) * env;
  client_signInPopup : string → env → Settled OAuthSession * env;
  agent_getProfile :
    Agent → string → env → Settled ProfileViewDetailed * env;
  repo_createRecord :
    Agent → string → string → JsObject → env
    → Settled CreateResponse * env;
  repo_listRecords :
    Agent → string → string → Z → env → Settled (list RepoRecord) * env;
  repo_deleteRecord :
    Agent → string → string → string → env → Settled unit * env;
  Date_now : env → Z * env;
  toISOString : Z → string;
}.

(** ** Asynchronous computations over the world *)

Section App.
Context `{B : Backend}.

(** What a handler can touch: the component's current React state, the
    outside, [window.localStorage], and two journals (what was written to
    the console, which requests went out through an agent). *)
Record World : Type := {
  st : Component;
  ext : env;
  localStorage : gmap string string;
  console : list ConsoleEntry;
  network : list Request;
}.

(** An [async] function body: run from a world, it settles and leaves a
    world. *)
Definition Async (A : Type) : Type := World → Settled A * World.

#[global] Instance Async_ret : MRet Async := λ A a w, (Fulfilled a, w).

#[global] Instance Async_bind : MBind Async := λ A C f m w,
  match m w with
  | (Fulfilled a, w') => f a w'
  | (Rejected e, w') => (Rejected e, w')
  end.

Definition throw {A : Type} (e : JsError) : Async A := λ w, (Rejected e, w).

(** [try { body } catch (err) { handler }] *)
Definition try_catch {A : Type} (body : Async A) (handler : JsError → Async A)
  : Async A := λ w,
  match body w with
  | (Fulfilled a, w') => (Fulfilled a, w')
  | (Rejected e, w') => handler e w'
  end.

(** *** State setters *)

Definition with_st (f : Component → Component) : Async unit := λ w,
  (Fulfilled tt,
   {| st := f (st w); ext := ext w; localStorage := localStorage w;
      console := console w; network := network w |}).

Definition setAgent (a : option Agent) : Async unit :=
  with_st (λ c, {| agent := a; session := session c; profile := profile c;
                   lessons := lessons c; identifier := identifier c;
                   loading := loading c; error := error c |}).

Definition setSession (s : option OAuthSession) : Async unit :=
  with_st (λ c, {| agent := agent c; session := s; profile := profile c;
                   lessons := lessons c; identifier := identifier c;
                   loading := loading c; error := error c |}).

Definition setProfile (p : option ProfileViewDetailed) : Async unit :=
  with_st (λ c, {| agent := agent c; session := session c; profile := p;
                   lessons := lessons c; identifier := identifier c;
                   loading := loading c; error := error c |}).

Definition setLessons (l : list RepoRecord) : Async unit :=
  with_st (λ c, {| agent := agent c; session := session c;
                   profile := profile c; lessons := l;
                   identifier := identifier c; loading := loading c;
                   error := error c |}).

Definition setLoading (b : bool) : Async unit :=
  with_st (λ c, {| agent := agent c; session := session c;
                   profile := profile c; lessons := lessons c;
                   identifier := identifier c; loading := b;
                   error := error c |}).

Definition setError (msg : string) : Async unit :=
  with_st (λ c, {| agent := agent c; session := session c;
                   profile := profile c; lessons := lessons c;
                   identifier := identifier c; loading := loading c;
                   error := msg |}).

(** *** Console, storage and the outside *)

Definition console_write (entry : ConsoleEntry) : Async unit := λ w,
  (Fulfilled tt,
   {| st := st w; ext := ext w; localStorage := localStorage w;
      console := (console w ++ [entry])%list; network := network w |}).

Definition console_error (msg : string) (arg : option JsError) : Async unit :=
  console_write (ConsoleError msg arg).

Definition console_log (msg : string) : Async unit :=
  console_write (ConsoleLog msg).

(** [localStorage.removeItem(key)] *)
Definition localStorage_removeItem (key : string) : Async unit := λ w,
  (Fulfilled tt,
   {| st := st w; ext := ext w; localStorage := delete key (localStorage w);
      console := console w; network := network w |}).

(** An operation of the outside, awaited. *)
Definition await {A : Type} (op : env → Settled A * env) : Async A := λ w,
  let '(r, e) := op (ext w) in
  (r, {| st := st w; ext := e; localStorage := localStorage w;
         console := console w; network := network w |}).

(** The same for a request through an agent: it goes to the journal
    first. *)
Definition send {A : Type} (rq : Request) (op : env → Settled A * env)
  : Async A := λ w,
  await op {| st := st w; ext := ext w; localStorage := localStorage w;
              console := console w;
              network := (network w ++ [rq])%list |}.

(** [new Date().toISOString()] *)
Definition now_iso : Async string := λ w,
  let '(t, e) := Date_now (ext w) in
  (Fulfilled (toISOString t),
   {| st := st w; ext := e; localStorage := localStorage w;
      console := console w; network := network w |}).

Definition client_init_call : Async (option InitResult) := λ w,
  await (client_init (localStorage w)) w.

Definition createRecord (a : Agent) (repo collection : string)
    (record : JsObject) : Async CreateResponse :=
  send (CreateRecord a repo collection record)
       (repo_createRecord a repo collection record).

Definition listRecords (a : Agent) (repo collection : string) (limit : Z)
  : Async (list RepoRecord) :=
  send (ListRecords a repo collection limit)
       (repo_listRecords a repo collection limit).

Definition deleteRecord (a : Agent) (repo collection rkey : string)
  : Async unit :=
  send (DeleteRecord a repo collection rkey)
       (repo_deleteRecord a repo collection rkey).

Definition getProfile (a : Agent) (actor : string)
  : Async ProfileViewDetailed :=
  send (GetProfile a actor) (agent_getProfile a actor).

(** ** The component's functions

    Every function below is created by one render of [BlueskyApp] and reads
    [agent], [session] and [identifier] from that render: the argument
    [cap] is the state that render saw.  Setters write to the current
    state [st]. *)

Definition createAgent (s : OAuthSession) : Async unit :=
  setAgent (Some (Agent_of_session s)).

(** The body of the mount effect ([useEffect(..., [])]). *)
Definition initAuth (cap : Component) : Async unit :=
  try_catch
    (result ← client_init_call;
     match result with
     | Some r =>
         createAgent (init_session r);;
         setSession (Some (init_session r));;
         match agent cap with
         | None => mret tt
         | Some a =>
             profileRes ← getProfile a (did (init_session r));
             setProfile (Some profileRes)
         end
     | None => mret tt
     end)
    (λ err, console_error "Auth initialization failed:" (Some err)).

(** 1. LOGIN FUNCTION.  The module-level [client] is always there, so the
    guard [if (!client) return;] never returns; [finally] runs after the
    [try] and after the [catch], which does not throw. *)
Definition handleLogin (cap : Component) : Async unit :=
  setLoading true;;
  setError "";;
  try_catch
    (s ← await (client_signInPopup (identifier cap));
     createAgent s;;
     console_log "got oauth session";;
     setSession (Some s))
    (λ err,
       setError (if String.eqb (message err) "" then "Login failed"
                 else message err);;
       console_error "Login error:" (Some err));;
  setLoading false.

(** Logout *)
Definition handleLogout : Async unit :=
  setSession None;;
  setAgent None;;
  localStorage_removeItem "bsky-session";;
  setAgent (Some (Agent_of_service "https://bsky.social")).

(** 3. READ DATA FROM CUSTOM COLLECTION.  [None] is the [undefined] of the
    bare [return]. *)
Definition fetchLessons (cap : Component) : Async (option (list RepoRecord)) :=
  match agent cap, session cap with
  | Some a, Some s =>
      try_catch
        (records ← listRecords a (did s) LESSON_COLLECTION 100;
         console_log "Fetched lessons:";;
         setLessons records;;
         mret (Some records))
        (λ err,
           console_error "Error fetching lessons:" (Some err);;
           throw err)
  | _, _ =>
      console_error "Not logged in" None;;
      mret None
  end.

(** 2. SAVE DATA TO CUSTOM COLLECTION *)
Definition saveLesson (cap : Component) (lessonData : LessonRecord)
  : Async (option CreateResponse) :=
  match agent cap, session cap with
  | Some a, Some s =>
      try_catch
        (createdAt ← now_iso;
         response ← createRecord a (did s) LESSON_COLLECTION
                      (lesson_body lessonData createdAt);
         console_log "Lesson saved!";;
         console_log "Record URI:";;
         console_log "Record CID:";;
         fetchLessons cap;;
         mret (Some response))
        (λ err,
           console_error "Error saving lesson:" (Some err);;
           throw err)
  | _, _ =>
      console_error "Not logged in" None;;
      mret None
  end.

(** Delete a lesson *)
Definition deleteLesson (cap : Component) (rkey : string) : Async unit :=
  match agent cap, session cap with
  | Some a, Some s =>
      try_catch
        (deleteRecord a (did s) LESSON_COLLECTION rkey;;
         fetchLessons cap;;
         mret tt)
        (λ err, console_error "Error deleting lesson:" (Some err))
  | _, _ => mret tt
  end.

(** The Delete button of a rendered record:
    [const rkey = record.uri.split("/").pop()] and
    [onClick={() => deleteLesson(rkey!)}].  [split] never returns the empty
    array, so the [None] branch is never taken. *)
Definition onClick_delete (cap : Component) (record : RepoRecord)
  : Async unit :=
  match rkey_of_uri (uri record) with
  | Some rkey => deleteLesson cap rkey
  | None => mret tt
  end.

(** A handler of the latest render, run: it reads the current state. *)
Definition from_render {A : Type} (h : Component → Async A) : Async A :=
  λ w, h (st w) w.

(** The world at mount. *)
Definition world_at_mount (e : env) (ls : gmap string string) : World := {|
  st := initial_component;
  ext := e;
  localStorage := ls;
  console := [];
  network := [];
|}.

(** The state, outside and storage of two worlds agree, and no request went
    out in between. *)
Definition untouched (w w' : World) : Prop :=
  st w' = st w ∧ ext w' = ext w ∧ localStorage w' = localStorage w
  ∧ network w' = network w.

(** The request [saveLesson] sends first, when the clock reads [t]. *)
Definition create_request (a : Agent) (s : OAuthSession) (d : LessonRecord)
    (t : Z) : Request :=
  CreateRecord a (did s) LESSON_COLLECTION (lesson_body d (toISOString t)).

(** The request of [fetchLessons]. *)
Definition refresh_request (a : Agent) (s : OAuthSession) : Request :=
  ListRecords a (did s) LESSON_COLLECTION 100.

End App.

(** ** A reference backend

    A small repository server with an OAuth client in front of it, to run
    the component on concrete inputs.  The server keeps the records of all
    repositories, hands out record keys from a counter and can be told to
    reject a kind of request.  The OAuth client keeps the session it issued
    in a store of its own (not under a [localStorage] key the component
    knows) and restores it from there. *)

Module Demo.

Record Stored : Type := {
  in_repo : string;
  in_collection : string;
  stored : RepoRecord;
}.

Record Server : Type := {
  records : list Stored;
  next_key : Z;
  accounts : list (string * string);      (* handle, DID *)
  client_store : option OAuthSession;     (* kept by the OAuth client *)
  clock : Z;                              (* ms since the epoch *)
  reject_create : option JsError;
  reject_list : option JsError;
  reject_delete : option JsError;
}.

Definition with_records (rs : list Stored) (k : Z) (e : Server) : Server := {|
  records := rs; next_key := k; accounts := accounts e;
  client_store := client_store e; clock := clock e;
  reject_create := reject_create e; reject_list := reject_list e;
  reject_delete := reject_delete e;
|}.

Definition with_client_store (s : option OAuthSession) (e : Server)
  : Server := {|
  records := records e; next_key := next_key e; accounts := accounts e;
  client_store := s; clock := clock e;
  reject_create := reject_create e; reject_list := reject_list e;
  reject_delete := reject_delete e;
|}.

Definition unauthorized : JsError := {| message := "Authentication Required" |}.

Definition init (ls : gmap string string) (e : Server)
  : Settled (option InitResult) * Server :=
  (Fulfilled ((λ s, {| init_session := s; init_state := None |})
              <$> client_store e), e).

Fixpoint resolve (hdl : string) (accts : list (string * string))
  : option string :=
  match accts with
  | [] => None
  | (h, d) :: rest => if String.eqb h hdl then Some d else resolve hdl rest
  end.

Definition signInPopup (hdl : string) (e : Server)
  : Settled OAuthSession * Server :=
  match resolve hdl (accounts e) with
  | Some d =>
      let s := {| did := d; material := "dpop+jwt" |} in
      (Fulfilled s, with_client_store (Some s) e)
  | None => (Rejected {| message := "Failed to resolve identity" |}, e)
  end.

Definition profile_of (a : Agent) (actor : string) (e : Server)
  : Settled ProfileViewDetailed * Server :=
  (Fulfilled {| profile_did := actor; handle := "" |}, e).

Definition create (a : Agent) (repo collection : string) (body : JsObject)
    (e : Server) : Settled CreateResponse * Server :=
  match a, reject_create e with
  | Agent_of_service _, _ => (Rejected unauthorized, e)
  | _, Some err => (Rejected err, e)
  | Agent_of_session _, None =>
      let key := pretty (next_key e) in
      let u := "at://" +:+ repo +:+ "/" +:+ collection +:+ "/" +:+ key in
      let r := {| uri := u; cid := "bafy" +:+ key; value := body |} in
      (Fulfilled {| data_uri := u; data_cid := "bafy" +:+ key |},
       with_records
         (records e ++ [{| in_repo := repo; in_collection := collection;
                           stored := r |}])%list
         (next_key e + 1) e)
  end.

Definition held_in (repo collection : string) (x : Stored) : bool :=
  String.eqb (in_repo x) repo && String.eqb (in_collection x) collection.

Definition list_page (a : Agent) (repo collection : string) (limit : Z)
    (e : Server) : Settled (list RepoRecord) * Server :=
  match reject_list e with
  | Some err => (Rejected err, e)
  | None =>
      (Fulfilled
         (take (Z.to_nat limit)
            (stored <$> List.filter (held_in repo collection) (records e))),
       e)
  end.

Definition has_key (rkey : string) (x : Stored) : bool :=
  match rkey_of_uri (uri (stored x)) with
  | Some k => String.eqb k rkey
  | None => false
  end.

Definition remove (a : Agent) (repo collection rkey : string) (e : Server)
  : Settled unit * Server :=
  match a, reject_delete e with
  | Agent_of_service _, _ => (Rejected unauthorized, e)
  | _, Some err => (Rejected err, e)
  | Agent_of_session _, None =>
      (Fulfilled tt,
       with_records
         (List.filter
            (λ x, negb (held_in repo collection x && has_key rkey x))
            (records e))
         (next_key e) e)
  end.

(** [Date.prototype.toISOString]: [YYYY-MM-DDTHH:mm:ss.sssZ] in UTC, with
    the signed six-digit year outside 0..9999. *)
Fixpoint zeros (n : nat) : string :=
  match n with O => "" | S n' => "0" +:+ zeros n' end.

Definition padded (width : nat) (n : Z) : string :=
  let digits := pretty (Z.abs n) in
  zeros (width - String.length digits) +:+ digits.

Definition civil (days : Z) : Z * Z * Z :=
  let z := days + 719468 in
  let era := z `div` 146097 in
  let doe := z - era * 146097 in
  let yoe := (doe - doe `div` 1460 + doe `div` 36524 - doe `div` 146096)
               `div` 365 in
  let doy := doe - (365 * yoe + yoe `div` 4 - yoe `div` 100) in
  let mp := (5 * doy + 2) `div` 153 in
  let d := doy - (153 * mp + 2) `div` 5 + 1 in
  let m := if mp <? 10 then mp + 3 else mp - 9 in
  let y := yoe + era * 400 + (if m <=? 2 then 1 else 0) in
  (y, m, d).

Definition iso (t : Z) : string :=
  let '(y, m, d) := civil (t `div` 86400000) in
  let ms := t `mod` 86400000 in
  let year := if (0 <=? y) && (y <=? 9999) then padded 4 y
              else (if y <? 0 then "-" else "+") +:+ padded 6 y in
  year +:+ "-" +:+ padded 2 m +:+ "-" +:+ padded 2 d +:+ "T"
  +:+ padded 2 (ms `div` 3600000) +:+ ":"
  +:+ padded 2 ((ms `div` 60000) `mod` 60) +:+ ":"
  +:+ padded 2 ((ms `div` 1000) `mod` 60) +:+ "."
  +:+ padded 3 (ms `mod` 1000) +:+ "Z".

#[export] Instance backend : Backend := {|
  env := Server;
  client_init := init;
  client_signInPopup := signInPopup;
  agent_getProfile := profile_of;
  repo_createRecord := create;
  repo_listRecords := list_page;
  repo_deleteRecord := remove;
  Date_now := λ e, (clock e, e);
  toISOString := iso;
|}.

(** *** Concrete inputs *)

Definition alice : OAuthSession :=
  {| did := "did:plc:xyz"; material := "dpop+jwt" |}.

Definition alice_agent : Agent := Agent_of_session alice.

(** A server with one account, no record, at 2024-01-01T00:00:00Z. *)
Definition server0 : Server := {|
  records := []; next_key := 1;
  accounts := [("user.example.social", "did:plc:xyz")];
  client_store := None; clock := 1704067200000;
  reject_create := None; reject_list := None; reject_delete := None;
|}.

(** The same after alice signed in once: the client holds her session. *)
Definition server_alice : Server := with_client_store (Some alice) server0.

Definition transport_error : JsError := {| message := "Failed to fetch" |}.

Definition server_create_down : Server := {|
  records := records server_alice; next_key := 1;
  accounts := accounts server_alice; client_store := Some alice;
  clock := clock server_alice;
  reject_create := Some transport_error; reject_list := None;
  reject_delete := None;
|}.

Definition server_delete_down : Server := {|
  records := records server_alice; next_key := 1;
  accounts := accounts server_alice; client_store := Some alice;
  clock := clock server_alice;
  reject_create := None; reject_list := None;
  reject_delete := Some transport_error;
|}.

Definition lesson1 : LessonRecord := {|
  lessonId := "lesson-1"; completedAt := "2024-01-01T00:00:00Z";
  score := 87; notes := None;
|}.

(** The state of the component once alice is signed in. *)
Definition signed_in : Component := {|
  agent := Some alice_agent; session := Some alice; profile := None;
  lessons := []; identifier := "user.example.social"; loading := false;
  error := "";
|}.

Definition world_of (c : Component) (e : Server) : World := {|
  st := c; ext := e; localStorage := ∅; console := []; network := [];
|}.

(** The record alice's first lesson becomes, and the server holding it. *)
Definition record1 : RepoRecord := {|
  uri := "at://did:plc:xyz/app.piano.user.lesson/1";
  cid := "bafy1";
  value := lesson_body lesson1 "2024-01-01T00:00:00.000Z";
|}.

Definition server_one : Server :=
  with_records
    [{| in_repo := "did:plc:xyz"; in_collection := LESSON_COLLECTION;
        stored := record1 |}] 2 server_alice.

(** The same server once that record is deleted again. *)
Definition server_alice_emptied : Server := with_records [] 2 server_alice.

(** A browser where something was left under the key [handleLogout]
    removes. *)
Definition world_with_key (c : Component) (e : Server) : World := {|
  st := c; ext := e; localStorage := {[ "bsky-session" := "stale" ]};
  console := []; network := [];
|}.

End Demo.

(** ** A backend that is down

    Every operation of the outside rejects; the clock stands at the
    epoch. *)

Module Offline.

Definition down : JsError := {| message := "NetworkError" |}.

#[export] Instance backend : Backend := {|
  env := unit;
  client_init := λ _ e, (Rejected down, e);
  client_signInPopup := λ _ e, (Rejected down, e);
  agent_getProfile := λ _ _ e, (Rejected down, e);
  repo_createRecord := λ _ _ _ _ e, (Rejected down, e);
  repo_listRecords := λ _ _ _ _ e, (Rejected down, e);
  repo_deleteRecord := λ _ _ _ _ e, (Rejected down, e);
  Date_now := λ e, (0, e);
  toISOString := Demo.iso;
|}.

End Offline.

(** ** More concrete inputs on the reference backend *)

Module Cases.

(** The login form with the handle of the one account typed in. *)
Definition typed : Component := {|
  agent := None; session := None; profile := None; lessons := [];
  identifier := "user.example.social"; loading := false; error := "";
|}.

(** The server holding alice's first lesson, answering everything but
    list requests. *)
Definition server_list_down : Demo.Server := {|
  Demo.records := Demo.records Demo.server_one; Demo.next_key := 2;
  Demo.accounts := Demo.accounts Demo.server_one;
  Demo.client_store := Some Demo.alice;
  Demo.clock := Demo.clock Demo.server_one;
  Demo.reject_create := None;
  Demo.reject_list := Some Demo.transport_error;
  Demo.reject_delete := None;
|}.

(** The tracker of alice showing her first lesson. *)
Definition showing_one : Component := {|
  agent := Some Demo.alice_agent; session := Some Demo.alice;
  profile := None; lessons := [Demo.record1];
  identifier := "user.example.social"; loading := false; error := "";
|}.

End Cases.

(** ** The reference backend behind a network that drops list requests

    The outside pairs the server of the reference backend with the number
    of list requests the network will still drop; every other operation is
    the server's. *)

Module Flaky.

Definition Net : Type := Demo.Server * nat.

Definition through {A : Type} (op : Demo.Server → Settled A * Demo.Server)
    (e : Net) : Settled A * Net :=
  let '(r, srv) := op e.1 in (r, (srv, e.2)).

Definition list_page (a : Agent) (repo collection : string) (limit : Z)
    (e : Net) : Settled (list RepoRecord) * Net :=
  match e.2 with
  | S n => (Rejected Demo.transport_error, (e.1, n))
  | O => through (Demo.list_page a repo collection limit) e
  end.

#[export] Instance backend : Backend := {|
  env := Net;
  client_init := λ ls, through (Demo.init ls);
  client_signInPopup := λ hdl, through (Demo.signInPopup hdl);
  agent_getProfile := λ a actor, through (Demo.profile_of a actor);
  repo_createRecord := λ a repo collection body,
    through (Demo.create a repo collection body);
  repo_listRecords := list_page;
  repo_deleteRecord := λ a repo collection rkey,
    through (Demo.remove a repo collection rkey);
  Date_now := λ e, (Demo.clock e.1, e);
  toISOString := Demo.iso;
|}.

(** The tracker of alice showing her first lesson, the server holding it,
    the next list request about to be dropped. *)
Definition one_outage : World := {|
  st := Cases.showing_one; ext := (Demo.server_one, 1%nat);
  localStorage := ∅; console := []; network := [];
|}.

End Flaky.

(** ** Reading a record, the rendered view, calls in sequence *)

(** [o.k]: the value of the own property [k], [undefined] (here [None])
    when there is none. *)
Fixpoint get_prop (k : string) (o : JsObject) : option JsValue :=
  match o with
  | [] => None
  | (k', v) :: rest => if String.eqb k' k then Some v else get_prop k rest
  end.

(** The names of the own properties, in order. *)
Definition keys (o : JsObject) : list string := fst <$> o.

(** [!!v] for the values a record body holds: the empty string and zero
    are falsy. *)
Definition truthy (v : JsValue) : bool :=
  match v with
  | JStr s => negb (String.eqb s "")
  | JNum n => negb (n =? 0)
  end.

(** What [{x && <div>...{x}</div>}] leaves in the tree: the [div] for a
    truthy [x]; nothing for [undefined] and the empty string; the text "0"
    for zero. *)
Inductive Slot : Type :=
  | Nothing
  | Text (s : string)
  | Line (v : JsValue).

Definition and_then_line (x : option JsValue) : Slot :=
  match x with
  | None => Nothing
  | Some v =>
      if truthy v then Line v
      else match v with JStr _ => Nothing | JNum _ => Text "0" end
  end.

(** One element of [lessons.map(...)]: its [key], the values it shows (the
    [completedAt] value before [new Date(...).toLocaleString()], which
    depends on the locale), and the key its Delete button passes to
    [deleteLesson]. *)
Record Row : Type := {
  row_key : string;
  row_lessonId : option JsValue;
  row_score : option JsValue;
  row_completedAt : option JsValue;
  row_notes : Slot;
  row_uri : string;
  row_rkey : option string;
}.

Definition row_of (record : RepoRecord) : Row := {|
  row_key := uri record;
  row_lessonId := get_prop "lessonId" (value record);
  row_score := get_prop "score" (value record);
  row_completedAt := get_prop "completedAt" (value record);
  row_notes := and_then_line (get_prop "notes" (value record));
  row_uri := uri record;
  row_rkey := rkey_of_uri (uri record);
|}.

(** [lessons.length === 0 ? <p>No lessons yet...</p> : <div>{rows}</div>] *)
Inductive Listing : Type :=
  | NoLessonsYet
  | Rows (rows : list Row).

(** What [BlueskyApp] returns, styles left out: the login form (the value
    of the input, the error line when there is one, the [disabled] and the
    label of the button), or the tracker (the DID shown, the count of the
    heading, the listing). *)
Inductive View : Type :=
  | LoginView (input_value : string) (error_line : option string)
      (button_disabled : bool) (button_label : string)
  | LessonsView (did_shown : string) (count : nat) (listing : Listing).

Definition render (c : Component) : View :=
  match session c with
  | None =>
      LoginView (identifier c)
        (if String.eqb (error c) "" then None else Some (error c))
        (loading c)
        (if loading c then "Logging in..." else "Login")
  | Some s =>
      LessonsView (did s) (length (lessons c))
        (if Nat.eqb (length (lessons c)) 0 then NoLessonsYet
         else Rows (row_of <$> lessons c))
  end.

(** The agent in the state is the one built from the session in the
    state. *)
Definition coherent (c : Component) : Prop :=
  ∀ s : OAuthSession, session c = Some s → agent c = Some (Agent_of_session s).

(** A request goes through an agent built from a session, to the repository
    of that session's DID, in [LESSON_COLLECTION]; a list request asks for
    100 records. *)
Definition well_addressed (rq : Request) : Prop :=
  match rq with
  | CreateRecord (Agent_of_session s) repo collection _
  | DeleteRecord (Agent_of_session s) repo collection _ =>
      repo = did s ∧ collection = LESSON_COLLECTION
  | ListRecords (Agent_of_session s) repo collection limit =>
      repo = did s ∧ collection = LESSON_COLLECTION ∧ limit = 100
  | _ => False
  end.

Definition is_getProfile (rq : Request) : Prop :=
  match rq with GetProfile _ _ => True | _ => False end.

(** All fields of the state but [lessons] agree. *)
Definition same_but_lessons (c c' : Component) : Prop :=
  agent c' = agent c ∧ session c' = session c ∧ profile c' = profile c
  ∧ identifier c' = identifier c ∧ loading c' = loading c
  ∧ error c' = error c.

Section Use.
Context `{B : Backend}.

(** [onChange={(e) => setIdentifier(e.target.value)}] *)
Definition setIdentifier (v : string) : Async unit :=
  with_st (λ c, {| agent := agent c; session := session c;
                   profile := profile c; lessons := lessons c;
                   identifier := v; loading := loading c;
                   error := error c |}).

(** The calls the component makes of its functions: the mount effect,
    which runs [initAuth] of the first render, and the handlers of the
    latest render ([saveLesson] is called by [addTestLesson] with a payload
    of its making; any payload here). *)
Inductive Call : Type :=
  | Mount
  | SubmitLogin
  | ClickLogout
  | Save (lessonData : LessonRecord)
  | ClickRefresh
  | Delete (rkey : string)
  | ClickDelete (record : RepoRecord)
  | TypeIdentifier (v : string).

(** A call run to its end, one at a time. *)
Definition perform (c : Call) (w : World) : World :=
  match c with
  | Mount => (initAuth initial_component w).2
  | SubmitLogin => (from_render handleLogin w).2
  | ClickLogout => (handleLogout w).2
  | Save d => (from_render (λ cap, saveLesson cap d) w).2
  | ClickRefresh => (from_render fetchLessons w).2
  | Delete rkey => (from_render (λ cap, deleteLesson cap rkey) w).2
  | ClickDelete record =>
      (from_render (λ cap, onClick_delete cap record) w).2
  | TypeIdentifier v => (setIdentifier v w).2
  end.

Definition perform_all (cs : list Call) (w : World) : World :=
  foldl (λ w c, perform c w) w cs.

End Use.

(** ** Facts on [split] and [pop] *)

Section SplitFacts.
Variable sep : ascii.

Lemma split_nonempty (s : string) : Js.split sep s ≠ [].
Proof.
  destruct s as [|c rest]; simpl; [done|].
  destruct (Ascii.eqb c sep); [done|].
  by destruct (Js.split sep rest).
Qed.

Lemma split_lacks (s : string) :
  Js.lacks sep s = true → Js.split sep s = [s].
Proof.
  induction s as [|c rest IH]; simpl; [done|].
  destruct (Ascii.eqb c sep); simpl; [done|].
  intros Hrest. by rewrite (IH Hrest).
Qed.

Lemma pop_cons {A} (x : A) (l : list A) :
  l ≠ [] → Js.pop (x :: l) = Js.pop l.
Proof. by destruct l. Qed.

(** Splitting distributes over a separator occurrence. *)
Lemma split_app (p k : string) :
  Js.split sep (p +:+ String sep k)
  = (Js.split sep p ++ Js.split sep k)%list.
Proof.
  induction p as [|c rest IH]; simpl.
  - by rewrite Ascii.eqb_refl.
  - destruct (Ascii.eqb c sep); rewrite IH; [done|].
    pose proof (split_nonempty rest) as Hne.
    by destruct (Js.split sep rest).
Qed.

Lemma pop_app {A} (l1 l2 : list A) :
  l2 ≠ [] → Js.pop (l1 ++ l2)%list = Js.pop l2.
Proof.
  intros Hne. induction l1 as [|x l1 IH]; [done|].
  rewrite <- IH. apply pop_cons. by destruct l1, l2.
Qed.

Lemma pop_split_last_segment (p k : string) :
  Js.lacks sep k = true →
  Js.pop (Js.split sep (p +:+ String sep k)) = Some k.
Proof.
  intros Hk. rewrite split_app, pop_app by apply split_nonempty.
  by rewrite (split_lacks _ Hk).
Qed.
End SplitFacts.

(** ** Properties of the record-key extraction *)

Lemma append_assoc (x y z : string) : (x +:+ y) +:+ z = x +:+ (y +:+ z).
Proof.
  induction x as [|c x IH]; [done|].
  change (String c ((x +:+ y) +:+ z) = String c (x +:+ y +:+ z)).
  by rewrite IH.
Qed.

Lemma pop_last {A : Type} (a : list A) : Js.pop a = last a.
Proof. induction a as [|x [|y a] IH]; done. Qed.

Lemma rkey_of_uri_defined (u : string) : is_Some (rkey_of_uri u).
Proof.
  unfold rkey_of_uri. rewrite pop_last. apply last_is_Some, split_nonempty.
Qed.

(** C4: the record key derived from a locator
    [scheme://owner/namespace/key] is its final [/]-delimited segment: the
    last element of the split on [/], which is [key] itself; for
    [at://did123/app.piano.user.lesson/abc789] it is [abc789]. *)
Theorem rkey_is_last_segment (scheme owner namespace key : string) :
  Js.lacks "/" key = true →
  rkey_of_uri (scheme +:+ "://" +:+ owner +:+ "/" +:+ namespace +:+ "/" +:+ key)
    = Some key
  ∧ (∀ u : string, rkey_of_uri u = last (Js.split "/" u))
  ∧ rkey_of_uri "at://did123/app.piano.user.lesson/abc789" = Some "abc789".
Proof.
  intros Hkey. split; [|split].
  - unfold rkey_of_uri.
    change ("/" +:+ key) with (String "/" key).
    rewrite <- !append_assoc.
    by apply pop_split_last_segment.
  - intros u. apply pop_last.
  - reflexivity.
Qed.

Lemma rkey_is_last_segment_witness :
  Js.lacks "/" "3lbc2xyz" = true
  ∧ rkey_of_uri "at://did:plc:xyz/app.piano.user.lesson/3lbc2xyz"
    = Some "3lbc2xyz".
Proof.
  split; [reflexivity|].
  apply (rkey_is_last_segment "at" "did:plc:xyz" "app.piano.user.lesson"
           "3lbc2xyz").
  reflexivity.
Defined.

(** ** Properties of the record body *)

Lemma lesson_body_shape (d : LessonRecord) (createdAt : string) :
  lesson_body d createdAt
  = (("$type", JStr LESSON_COLLECTION) :: lesson_props d
     ++ [("createdAt", JStr createdAt)])%list.
Proof. unfold lesson_body, lesson_props. by destruct (notes d). Qed.

(** ** Properties of the handlers *)

Section Handlers.
Context `{B : Backend}.

(** Compute, leaving the record body and the namespace folded. *)
Ltac run := cbn -[lesson_body LESSON_COLLECTION].

(** Unfold the plumbing of [Async] down to the backend operations. *)
Ltac async :=
  unfold from_render, onClick_delete, saveLesson, fetchLessons, deleteLesson,
    initAuth, handleLogin, handleLogout, createAgent, createRecord,
    listRecords, deleteRecord, getProfile, client_init_call, now_iso,
    try_catch, throw, send, await, console_error, console_log, console_write,
    localStorage_removeItem, setAgent, setSession, setProfile, setLessons,
    setLoading, setError, with_st, mbind, mret, Async_bind, Async_ret;
  run.

(** Without a captured agent or session, the three operations return at
    their guard. *)
Lemma saveLesson_guard (cap : Component) (d : LessonRecord) (w : World) :
  session cap = None →
  ∃ w', saveLesson cap d w = (Fulfilled None, w') ∧ untouched w w'
        ∧ console w'
          = (console w ++ [ConsoleError "Not logged in" None])%list.
Proof.
  intros Hs. unfold saveLesson. rewrite Hs.
  destruct (agent cap); async; eexists; (split; [reflexivity|]); by cbn.
Qed.

Lemma fetchLessons_guard (cap : Component) (w : World) :
  session cap = None →
  ∃ w', fetchLessons cap w = (Fulfilled None, w') ∧ untouched w w'
        ∧ console w'
          = (console w ++ [ConsoleError "Not logged in" None])%list.
Proof.
  intros Hs. unfold fetchLessons. rewrite Hs.
  destruct (agent cap); async; eexists; (split; [reflexivity|]); by cbn.
Qed.

Lemma deleteLesson_guard (cap : Component) (rkey : string) (w : World) :
  session cap = None → deleteLesson cap rkey w = (Fulfilled tt, w).
Proof.
  intros Hs. unfold deleteLesson. rewrite Hs. by destruct (agent cap).
Qed.

(** The refresh, when the list request is answered. *)
Lemma fetchLessons_fulfilled (cap : Component) (a : Agent) (s : OAuthSession)
    (w : World) (rs : list RepoRecord) (e1 : env) :
  agent cap = Some a → session cap = Some s →
  repo_listRecords a (did s) LESSON_COLLECTION 100 (ext w)
  = (Fulfilled rs, e1) →
  ∃ w', fetchLessons cap w = (Fulfilled (Some rs), w')
        ∧ lessons (st w') = rs ∧ ext w' = e1
        ∧ localStorage w' = localStorage w
        ∧ network w'
          = (network w ++ [ListRecords a (did s) LESSON_COLLECTION 100])%list
        ∧ console w' = (console w ++ [ConsoleLog "Fetched lessons:"])%list
        ∧ agent (st w') = agent (st w) ∧ session (st w') = session (st w).
Proof.
  intros Ha Hs Hlist. unfold fetchLessons. rewrite Ha, Hs. async.
  rewrite Hlist. eexists; split; [reflexivity|]. by cbn.
Qed.

(** The refresh, when the list request fails: the error is logged and
    thrown again, the state stays. *)
Lemma fetchLessons_rejected (cap : Component) (a : Agent) (s : OAuthSession)
    (w : World) (err : JsError) (e1 : env) :
  agent cap = Some a → session cap = Some s →
  repo_listRecords a (did s) LESSON_COLLECTION 100 (ext w)
  = (Rejected err, e1) →
  ∃ w', fetchLessons cap w = (Rejected err, w')
        ∧ st w' = st w ∧ ext w' = e1
        ∧ network w'
          = (network w ++ [ListRecords a (did s) LESSON_COLLECTION 100])%list
        ∧ console w'
          = (console w
             ++ [ConsoleError "Error fetching lessons:" (Some err)])%list.
Proof.
  intros Ha Hs Hlist. unfold fetchLessons. rewrite Ha, Hs. async.
  rewrite Hlist. eexists; split; [reflexivity|]. by cbn.
Qed.

(** C8: with agent and session in hand, [fetchLessons] sends one
    list-records request for (the session's DID, [LESSON_COLLECTION]) with
    limit 100 and, when it is answered, the lessons state is exactly the
    returned sequence, in the order given, whatever it held before. *)
Theorem list_replaces_cache (cap : Component) (a : Agent) (s : OAuthSession)
    (w : World) :
  agent cap = Some a → session cap = Some s →
  network (fetchLessons cap w).2
  = (network w ++ [ListRecords a (did s) LESSON_COLLECTION 100])%list
  ∧ ∀ (rs : list RepoRecord) (e1 : env),
      repo_listRecords a (did s) LESSON_COLLECTION 100 (ext w)
      = (Fulfilled rs, e1) →
      (fetchLessons cap w).1 = Fulfilled (Some rs)
      ∧ lessons (st (fetchLessons cap w).2) = rs.
Proof.
  intros Ha Hs. split.
  - destruct (repo_listRecords a (did s) LESSON_COLLECTION 100 (ext w))
      as [[rs|err] e1] eqn:Hlist.
    + destruct (fetchLessons_fulfilled cap a s w rs e1 Ha Hs Hlist)
        as (w' & -> & _ & _ & _ & Hn & _). exact Hn.
    + destruct (fetchLessons_rejected cap a s w err e1 Ha Hs Hlist)
        as (w' & -> & _ & _ & Hn & _). exact Hn.
  - intros rs e1 Hlist.
    destruct (fetchLessons_fulfilled cap a s w rs e1 Ha Hs Hlist)
      as (w' & -> & Hl & _). by cbn.
Qed.

(** *** Creating *)

Section Save.
Variables (cap : Component) (a : Agent) (s : OAuthSession).
Variables (d : LessonRecord) (w : World) (t : Z) (e0 : env).
Hypothesis Hagent : agent cap = Some a.
Hypothesis Hsession : session cap = Some s.
Hypothesis Hclock : Date_now (ext w) = (t, e0).

Lemma saveLesson_create_rejected (err : JsError) (e1 : env) :
  repo_createRecord a (did s) LESSON_COLLECTION
    (lesson_body d (toISOString t)) e0 = (Rejected err, e1) →
  ∃ w', saveLesson cap d w = (Rejected err, w')
        ∧ st w' = st w ∧ ext w' = e1
        ∧ network w' = (network w ++ [create_request a s d t])%list
        ∧ console w'
          = (console w
             ++ [ConsoleError "Error saving lesson:" (Some err)])%list.
Proof.
  intros Hcreate. unfold saveLesson. rewrite Hagent, Hsession. async.
  rewrite Hclock. run. rewrite Hcreate.
  eexists; split; [reflexivity|]. by cbn.
Qed.

Lemma saveLesson_fulfilled (resp : CreateResponse) (e1 e2 : env)
    (rs : list RepoRecord) :
  repo_createRecord a (did s) LESSON_COLLECTION
    (lesson_body d (toISOString t)) e0 = (Fulfilled resp, e1) →
  repo_listRecords a (did s) LESSON_COLLECTION 100 e1 = (Fulfilled rs, e2) →
  ∃ w', saveLesson cap d w = (Fulfilled (Some resp), w')
        ∧ lessons (st w') = rs ∧ ext w' = e2
        ∧ network w'
          = (network w ++ [create_request a s d t; refresh_request a s])%list.
Proof.
  intros Hcreate Hlist. unfold saveLesson. rewrite Hagent, Hsession. async.
  rewrite Hclock. run. rewrite Hcreate, Hagent, Hsession. run.
  rewrite Hlist. eexists; split; [reflexivity|]. cbn.
  by rewrite <- app_assoc.
Qed.

Lemma saveLesson_refresh_rejected (resp : CreateResponse) (e1 e2 : env)
    (err : JsError) :
  repo_createRecord a (did s) LESSON_COLLECTION
    (lesson_body d (toISOString t)) e0 = (Fulfilled resp, e1) →
  repo_listRecords a (did s) LESSON_COLLECTION 100 e1 = (Rejected err, e2) →
  ∃ w', saveLesson cap d w = (Rejected err, w')
        ∧ st w' = st w ∧ ext w' = e2
        ∧ network w'
          = (network w ++ [create_request a s d t; refresh_request a s])%list.
Proof.
  intros Hcreate Hlist. unfold saveLesson. rewrite Hagent, Hsession. async.
  rewrite Hclock. run. rewrite Hcreate, Hagent, Hsession. run.
  rewrite Hlist. eexists; split; [reflexivity|]. cbn.
  by rewrite <- app_assoc.
Qed.
End Save.

(** C5: with a session, [saveLesson] sends a create-record request
    addressed to (the session's DID, [LESSON_COLLECTION]) whose body is the
    namespace tag [$type], then the payload's fields, then [createdAt], the
    ISO string of the clock read at the call. *)
Theorem create_sends_tagged_body (cap : Component) (a : Agent)
    (s : OAuthSession) (d : LessonRecord) (w : World) (t : Z) (e0 : env) :
  agent cap = Some a → session cap = Some s → Date_now (ext w) = (t, e0) →
  ∃ rest : list Request,
    network (saveLesson cap d w).2
    = (network w
       ++ CreateRecord a (did s) LESSON_COLLECTION
            (("$type", JStr LESSON_COLLECTION) :: lesson_props d
             ++ [("createdAt", JStr (toISOString t))])
          :: rest)%list.
Proof.
  intros Ha Hs Hclock. rewrite <- lesson_body_shape.
  destruct (repo_createRecord a (did s) LESSON_COLLECTION
              (lesson_body d (toISOString t)) e0) as [[resp|err] e1] eqn:Hc.
  - destruct (repo_listRecords a (did s) LESSON_COLLECTION 100 e1)
      as [[rs|err] e2] eqn:Hl.
    + destruct (saveLesson_fulfilled cap a s d w t e0 Ha Hs Hclock
                  resp e1 e2 rs Hc Hl) as (w' & -> & _ & _ & Hn).
      by eexists.
    + destruct (saveLesson_refresh_rejected cap a s d w t e0 Ha Hs Hclock
                  resp e1 e2 err Hc Hl) as (w' & -> & _ & _ & Hn).
      by eexists.
  - destruct (saveLesson_create_rejected cap a s d w t e0 Ha Hs Hclock
                err e1 Hc) as (w' & -> & _ & _ & Hn & _).
    by eexists.
Qed.

(** C6: when the create-record request fails, [saveLesson] rejects with
    the very error the request failed with, after that one request, and
    the component state, the lessons with it, is what it was; the lessons
    are as they were after any rejection of [saveLesson]. *)
Theorem failed_create_leaves_cache (cap : Component) (a : Agent)
    (s : OAuthSession) (d : LessonRecord) (w : World) (t : Z) (e0 : env) :
  agent cap = Some a → session cap = Some s → Date_now (ext w) = (t, e0) →
  (∀ (err : JsError) (e1 : env),
     repo_createRecord a (did s) LESSON_COLLECTION
       (lesson_body d (toISOString t)) e0 = (Rejected err, e1) →
     (saveLesson cap d w).1 = Rejected err
     ∧ st (saveLesson cap d w).2 = st w
     ∧ network (saveLesson cap d w).2
       = (network w ++ [create_request a s d t])%list)
  ∧ (∀ (err : JsError) (w' : World),
       saveLesson cap d w = (Rejected err, w') →
       lessons (st w') = lessons (st w)).
Proof.
  intros Ha Hs Hclock. split.
  - intros err e1 Hc.
    destruct (saveLesson_create_rejected cap a s d w t e0 Ha Hs Hclock
                err e1 Hc) as (w' & -> & Hst & _ & Hn & _).
    by cbn.
  - intros err w' Hrun.
    destruct (repo_createRecord a (did s) LESSON_COLLECTION
                (lesson_body d (toISOString t)) e0) as [[resp|err1] e1] eqn:Hc.
    + destruct (repo_listRecords a (did s) LESSON_COLLECTION 100 e1)
        as [[rs|err2] e2] eqn:Hl.
      * destruct (saveLesson_fulfilled cap a s d w t e0 Ha Hs Hclock
                    resp e1 e2 rs Hc Hl) as (w1 & Hrun1 & _).
        congruence.
      * destruct (saveLesson_refresh_rejected cap a s d w t e0 Ha Hs Hclock
                    resp e1 e2 err2 Hc Hl) as (w1 & Hrun1 & Hst & _).
        rewrite Hrun in Hrun1. injection Hrun1 as _ ->. by rewrite Hst.
    + destruct (saveLesson_create_rejected cap a s d w t e0 Ha Hs Hclock
                  err1 e1 Hc) as (w1 & Hrun1 & Hst & _).
      rewrite Hrun in Hrun1. injection Hrun1 as _ ->. by rewrite Hst.
Qed.

(** *** Deleting *)

Section Delete.
Variables (cap : Component) (a : Agent) (s : OAuthSession).
Variables (rkey : string) (w : World).
Hypothesis Hagent : agent cap = Some a.
Hypothesis Hsession : session cap = Some s.

Lemma deleteLesson_delete_rejected (err : JsError) (e1 : env) :
  repo_deleteRecord a (did s) LESSON_COLLECTION rkey (ext w)
  = (Rejected err, e1) →
  ∃ w', deleteLesson cap rkey w = (Fulfilled tt, w')
        ∧ st w' = st w ∧ ext w' = e1
        ∧ network w'
          = (network w
             ++ [DeleteRecord a (did s) LESSON_COLLECTION rkey])%list
        ∧ console w'
          = (console w
             ++ [ConsoleError "Error deleting lesson:" (Some err)])%list.
Proof.
  intros Hd. unfold deleteLesson. rewrite Hagent, Hsession. async.
  rewrite Hd. eexists; split; [reflexivity|]. by cbn.
Qed.

Lemma deleteLesson_fulfilled (e1 e2 : env) (rs : list RepoRecord) :
  repo_deleteRecord a (did s) LESSON_COLLECTION rkey (ext w)
  = (Fulfilled tt, e1) →
  repo_listRecords a (did s) LESSON_COLLECTION 100 e1 = (Fulfilled rs, e2) →
  ∃ w', deleteLesson cap rkey w = (Fulfilled tt, w')
        ∧ lessons (st w') = rs ∧ ext w' = e2
        ∧ network w'
          = (network w
             ++ [DeleteRecord a (did s) LESSON_COLLECTION rkey;
                 refresh_request a s])%list.
Proof.
  intros Hd Hl. unfold deleteLesson. rewrite Hagent, Hsession. async.
  rewrite Hd, Hagent, Hsession. run. rewrite Hl.
  eexists; split; [reflexivity|]. cbn. by rewrite <- app_assoc.
Qed.

Lemma deleteLesson_refresh_rejected (e1 e2 : env) (err : JsError) :
  repo_deleteRecord a (did s) LESSON_COLLECTION rkey (ext w)
  = (Fulfilled tt, e1) →
  repo_listRecords a (did s) LESSON_COLLECTION 100 e1 = (Rejected err, e2) →
  ∃ w', deleteLesson cap rkey w = (Fulfilled tt, w')
        ∧ st w' = st w ∧ ext w' = e2
        ∧ network w'
          = (network w
             ++ [DeleteRecord a (did s) LESSON_COLLECTION rkey;
                 refresh_request a s])%list
        ∧ console w'
          = (console w
             ++ [ConsoleError "Error fetching lessons:" (Some err);
                 ConsoleError "Error deleting lesson:" (Some err)])%list.
Proof.
  intros Hd Hl. unfold deleteLesson. rewrite Hagent, Hsession. async.
  rewrite Hd, Hagent, Hsession. run. rewrite Hl.
  eexists; split; [reflexivity|]. cbn. by rewrite <- !app_assoc.
Qed.
End Delete.

(** Whatever happens, the promise of [deleteLesson] is fulfilled. *)
Lemma deleteLesson_never_rejects (cap : Component) (rkey : string)
    (w : World) :
  (deleteLesson cap rkey w).1 = Fulfilled tt.
Proof.
  destruct (session cap) as [s|] eqn:Hs;
    [|by rewrite deleteLesson_guard].
  destruct (agent cap) as [a|] eqn:Ha;
    [|by unfold deleteLesson; rewrite Ha].
  destruct (repo_deleteRecord a (did s) LESSON_COLLECTION rkey (ext w))
    as [[[]|err] e1] eqn:Hd.
  - destruct (repo_listRecords a (did s) LESSON_COLLECTION 100 e1)
      as [[rs|err] e2] eqn:Hl.
    + by destruct (deleteLesson_fulfilled cap a s rkey w Ha Hs e1 e2 rs Hd Hl)
        as (w' & -> & _).
    + by destruct (deleteLesson_refresh_rejected cap a s rkey w Ha Hs
                     e1 e2 err Hd Hl) as (w' & -> & _).
  - by destruct (deleteLesson_delete_rejected cap a s rkey w Ha Hs err e1 Hd)
      as (w' & -> & _).
Qed.

(** The refresh after a mutation, when it is answered: whenever
    [saveLesson] is fulfilled, the create-record request was answered and
    was followed by one list request for (the session's DID,
    [LESSON_COLLECTION]); the lessons state is exactly what that list
    request returned.  Whenever the delete-record request of [deleteLesson]
    is answered and the list request after it too, the lessons state is
    exactly what that list request returned.  In both cases nothing of the
    former lessons state remains. *)
Theorem mutation_refreshes_cache (cap : Component) (a : Agent)
    (s : OAuthSession) (w : World) :
  agent cap = Some a → session cap = Some s →
  (∀ (d : LessonRecord) (r : option CreateResponse) (w' : World),
     saveLesson cap d w = (Fulfilled r, w') →
     ∃ (t : Z) (e0 e1 : env) (resp : CreateResponse) (rs : list RepoRecord),
       Date_now (ext w) = (t, e0)
       ∧ repo_createRecord a (did s) LESSON_COLLECTION
           (lesson_body d (toISOString t)) e0 = (Fulfilled resp, e1)
       ∧ r = Some resp
       ∧ repo_listRecords a (did s) LESSON_COLLECTION 100 e1
         = (Fulfilled rs, ext w')
       ∧ lessons (st w') = rs
       ∧ network w'
         = (network w ++ [create_request a s d t; refresh_request a s])%list)
  ∧ (∀ (rkey : string) (e1 e2 : env) (rs : list RepoRecord),
       repo_deleteRecord a (did s) LESSON_COLLECTION rkey (ext w)
       = (Fulfilled tt, e1) →
       repo_listRecords a (did s) LESSON_COLLECTION 100 e1
       = (Fulfilled rs, e2) →
       ∃ w' : World,
         deleteLesson cap rkey w = (Fulfilled tt, w')
         ∧ lessons (st w') = rs ∧ ext w' = e2
         ∧ network w'
           = (network w
              ++ [DeleteRecord a (did s) LESSON_COLLECTION rkey;
                  refresh_request a s])%list).
Proof.
  intros Ha Hs. split.
  - intros d r w' Hrun.
    destruct (Date_now (ext w)) as [t e0] eqn:Hclock.
    destruct (repo_createRecord a (did s) LESSON_COLLECTION
                (lesson_body d (toISOString t)) e0) as [[resp|err] e1] eqn:Hc.
    + destruct (repo_listRecords a (did s) LESSON_COLLECTION 100 e1)
        as [[rs|err] e2] eqn:Hl.
      * destruct (saveLesson_fulfilled cap a s d w t e0 Ha Hs Hclock
                    resp e1 e2 rs Hc Hl) as (w1 & Hrun1 & Hls & Hext & Hn).
        rewrite Hrun in Hrun1. injection Hrun1 as -> ->.
        exists t, e0, e1, resp, rs. by rewrite Hext.
      * destruct (saveLesson_refresh_rejected cap a s d w t e0 Ha Hs Hclock
                    resp e1 e2 err Hc Hl) as (w1 & Hrun1 & _).
        congruence.
    + destruct (saveLesson_create_rejected cap a s d w t e0 Ha Hs Hclock
                  err e1 Hc) as (w1 & Hrun1 & _).
      congruence.
  - intros rkey e1 e2 rs Hd Hl.
    by apply (deleteLesson_fulfilled cap a s rkey w Ha Hs e1 e2 rs).
Qed.

(** C3, as the code has it: when the delete-record request fails,
    [deleteLesson] logs the error to the console and its promise is
    fulfilled all the same (nothing is thrown to the caller); the component
    state, the lessons with it, is what it was. *)
Theorem failed_delete_is_swallowed (cap : Component) (a : Agent)
    (s : OAuthSession) (rkey : string) (w : World) (err : JsError)
    (e1 : env) :
  agent cap = Some a → session cap = Some s →
  repo_deleteRecord a (did s) LESSON_COLLECTION rkey (ext w)
  = (Rejected err, e1) →
  ∃ w' : World,
    deleteLesson cap rkey w = (Fulfilled tt, w')
    ∧ lessons (st w') = lessons (st w)
    ∧ console w'
      = (console w ++ [ConsoleError "Error deleting lesson:" (Some err)])%list
    ∧ network w'
      = (network w ++ [DeleteRecord a (did s) LESSON_COLLECTION rkey])%list.
Proof.
  intros Ha Hs Hd.
  destruct (deleteLesson_delete_rejected cap a s rkey w Ha Hs err e1 Hd)
    as (w' & Hrun & Hst & _ & Hn & Hc).
  exists w'. by rewrite Hst.
Qed.

(** C7, amended: [deleteLesson] takes a record key and sends it as it is in
    a delete-record request addressed to (the session's DID,
    [LESSON_COLLECTION], that key); the key is derived from a full address
    by the Delete button of the list, which calls [deleteLesson] with the
    final [/]-delimited segment of the record's [uri]. *)
Theorem delete_sends_key_verbatim (cap : Component) (a : Agent)
    (s : OAuthSession) (w : World) :
  agent cap = Some a → session cap = Some s →
  (∀ rkey : string,
     ∃ rest : list Request,
       network (deleteLesson cap rkey w).2
       = (network w
          ++ DeleteRecord a (did s) LESSON_COLLECTION rkey :: rest)%list)
  ∧ (∀ (record : RepoRecord) (prefix key : string),
       uri record = prefix +:+ "/" +:+ key → Js.lacks "/" key = true →
       onClick_delete cap record w = deleteLesson cap key w).
Proof.
  intros Ha Hs. split.
  - intros rkey.
    destruct (repo_deleteRecord a (did s) LESSON_COLLECTION rkey (ext w))
      as [[[]|err] e1] eqn:Hd.
    + destruct (repo_listRecords a (did s) LESSON_COLLECTION 100 e1)
        as [[rs|err] e2] eqn:Hl.
      * destruct (deleteLesson_fulfilled cap a s rkey w Ha Hs e1 e2 rs Hd Hl)
          as (w' & -> & _ & _ & Hn). by eexists.
      * destruct (deleteLesson_refresh_rejected cap a s rkey w Ha Hs
                    e1 e2 err Hd Hl) as (w' & -> & _ & _ & Hn & _).
        by eexists.
    + destruct (deleteLesson_delete_rejected cap a s rkey w Ha Hs err e1 Hd)
        as (w' & -> & _ & _ & Hn & _). by eexists.
  - intros record prefix key Huri Hkey. unfold onClick_delete, rkey_of_uri.
    rewrite Huri. change ("/" +:+ key) with (String "/" key).
    by rewrite pop_split_last_segment.
Qed.

(** C1, amended: created by a render holding no session (the [session]
    that render captured is null) and run in whatever world, [saveLesson],
    [fetchLessons] and [deleteLesson] return at their guard: no request is
    sent and state, outside and storage are as before; nothing is thrown,
    the promise is fulfilled with [undefined]; [saveLesson] and
    [fetchLessons] write "Not logged in" to the console. *)
Theorem unauthenticated_calls_return (cap : Component) (w : World) :
  session cap = None →
  (∀ d : LessonRecord,
     ∃ w' : World,
       saveLesson cap d w = (Fulfilled None, w')
       ∧ untouched w w'
       ∧ console w'
         = (console w ++ [ConsoleError "Not logged in" None])%list)
  ∧ (∃ w' : World,
       fetchLessons cap w = (Fulfilled None, w')
       ∧ untouched w w'
       ∧ console w'
         = (console w ++ [ConsoleError "Not logged in" None])%list)
  ∧ (∀ rkey : string,
       ∃ w' : World,
         deleteLesson cap rkey w = (Fulfilled tt, w')
         ∧ untouched w w').
Proof.
  intros Hs. split; [|split].
  - intros d. by apply saveLesson_guard.
  - by apply fetchLessons_guard.
  - intros rkey. exists w. by rewrite deleteLesson_guard.
Qed.

(** What [handleLogout] writes: it sets the session to null, replaces the
    agent by an unauthenticated one for https://bsky.social and removes
    the [localStorage] key "bsky-session", present or not; it sends no
    request and leaves the outside, hence whatever the OAuth client keeps
    there, as it was. *)
Theorem logout_clears_state_and_key (w : World) :
  ∃ w' : World,
    handleLogout w = (Fulfilled tt, w')
    ∧ session (st w') = None
    ∧ agent (st w') = Some (Agent_of_service "https://bsky.social")
    ∧ localStorage w' = delete "bsky-session" (localStorage w)
    ∧ localStorage w' !! "bsky-session" = None
    ∧ ext w' = ext w
    ∧ network w' = network w.
Proof.
  async. eexists; split; [reflexivity|]. cbn.
  repeat split. apply lookup_delete_eq.
Qed.

(** C10: the mount effect reads the [agent] of the first render, which is
    null.  When [client.init()] returns a session, the session and an agent
    built from it are stored, the guard returns, no [getProfile] request is
    sent and the profile state is not written: at mount it stays null. *)
Theorem resume_skips_profile (w : World) (r : InitResult) (e1 : env) :
  client_init (localStorage w) (ext w) = (Fulfilled (Some r), e1) →
  ∃ w' : World,
    initAuth initial_component w = (Fulfilled tt, w')
    ∧ session (st w') = Some (init_session r)
    ∧ agent (st w') = Some (Agent_of_session (init_session r))
    ∧ profile (st w') = profile (st w)
    ∧ (st w = initial_component → profile (st w') = None)
    ∧ network w' = network w
    ∧ ext w' = e1.
Proof.
  intros Hinit. async. rewrite Hinit. run.
  eexists; split; [reflexivity|]. cbn.
  repeat split. by intros ->.
Qed.

(** ** Further properties of the handlers *)

(** Case on the answers of the outside that the goal waits for. *)
Ltac answer :=
  repeat match goal with
  | |- context [match ?x with (_, _) => _ end] =>
      lazymatch x with
      | context [match _ with (_, _) => _ end] => fail
      | _ =>
          let r := fresh "r" in
          let e := fresh "e" in
          destruct x as [r e];
          try lazymatch type of r with Settled _ => destruct r end;
          run
      end
  end.

(** *** The mount effect *)

(** X1: whatever [client.init()] does (a session, nothing, an error), the
    mount effect settles fulfilled, sends no request through an agent and
    leaves profile, lessons, identifier and [localStorage] as they were. *)
Theorem mount_effect_is_quiet (w : World) :
  ∃ w' : World,
    initAuth initial_component w = (Fulfilled tt, w')
    ∧ network w' = network w
    ∧ profile (st w') = profile (st w)
    ∧ lessons (st w') = lessons (st w)
    ∧ identifier (st w') = identifier (st w)
    ∧ localStorage w' = localStorage w.
Proof.
  async.
  destruct (client_init (localStorage w) (ext w)) as [[[r|]|err] e1];
    run; eexists; (split; [reflexivity|]); by cbn.
Qed.

(** X2: when [client.init()] returns nothing, [initAuth] changes neither
    the state nor the console and sends nothing: no prior session is not
    an error. *)
Theorem resume_without_session (cap : Component) (w : World) (e1 : env) :
  client_init (localStorage w) (ext w) = (Fulfilled None, e1) →
  ∃ w' : World,
    initAuth cap w = (Fulfilled tt, w')
    ∧ st w' = st w ∧ console w' = console w ∧ network w' = network w
    ∧ localStorage w' = localStorage w ∧ ext w' = e1.
Proof.
  intros Hinit. async. rewrite Hinit. run.
  eexists; split; [reflexivity|]. by cbn.
Qed.

(** X3: when [client.init()] throws, [initAuth] catches the error, writes
    it to the console and settles fulfilled; state and journal of requests
    are as before. *)
Theorem resume_failure_is_logged (cap : Component) (w : World)
    (err : JsError) (e1 : env) :
  client_init (localStorage w) (ext w) = (Rejected err, e1) →
  ∃ w' : World,
    initAuth cap w = (Fulfilled tt, w')
    ∧ st w' = st w
    ∧ console w'
      = (console w
         ++ [ConsoleError "Auth initialization failed:" (Some err)])%list
    ∧ network w' = network w.
Proof.
  intros Hinit. async. rewrite Hinit. run.
  eexists; split; [reflexivity|]. by cbn.
Qed.

(** *** Signing in *)

Lemma login_session_stored (cap : Component) (w : World)
    (s : OAuthSession) (e1 : env) :
  client_signInPopup (identifier cap) (ext w) = (Fulfilled s, e1) →
  ∃ w' : World,
    handleLogin cap w = (Fulfilled tt, w')
    ∧ session (st w') = Some s
    ∧ agent (st w') = Some (Agent_of_session s)
    ∧ lessons (st w') = lessons (st w).
Proof.
  intros Hsign. async. rewrite Hsign. run.
  eexists; split; [reflexivity|]. by cbn.
Qed.

(** X4: when [client.signInPopup] is fulfilled with a session for the
    identifier the render held, [handleLogin] stores that session and an
    agent built from it, ends with [loading] false and [error] empty,
    sends no request and leaves lessons, profile and identifier alone. *)
Theorem login_stores_session (cap : Component) (w : World)
    (s : OAuthSession) (e1 : env) :
  client_signInPopup (identifier cap) (ext w) = (Fulfilled s, e1) →
  ∃ w' : World,
    handleLogin cap w = (Fulfilled tt, w')
    ∧ session (st w') = Some s
    ∧ agent (st w') = Some (Agent_of_session s)
    ∧ loading (st w') = false ∧ error (st w') = ""
    ∧ lessons (st w') = lessons (st w)
    ∧ profile (st w') = profile (st w)
    ∧ identifier (st w') = identifier (st w)
    ∧ network w' = network w ∧ ext w' = e1.
Proof.
  intros Hsign. async. rewrite Hsign. run.
  eexists; split; [reflexivity|]. by cbn.
Qed.

(** X5: when [client.signInPopup] rejects, [handleLogin] settles fulfilled
    with the session and agent it found; [error] is the message of the
    error, or "Login failed" when that message is empty, hence never
    empty; [loading] is false again and the error is on the console. *)
Theorem login_failure_keeps_session (cap : Component) (w : World)
    (err : JsError) (e1 : env) :
  client_signInPopup (identifier cap) (ext w) = (Rejected err, e1) →
  ∃ w' : World,
    handleLogin cap w = (Fulfilled tt, w')
    ∧ session (st w') = session (st w)
    ∧ agent (st w') = agent (st w)
    ∧ error (st w')
      = (if String.eqb (message err) "" then "Login failed"
         else message err)
    ∧ error (st w') ≠ ""
    ∧ loading (st w') = false
    ∧ console w'
      = (console w ++ [ConsoleError "Login error:" (Some err)])%list
    ∧ network w' = network w.
Proof.
  intros Hsign. async. rewrite Hsign. run.
  eexists; split; [reflexivity|]. cbn. repeat split.
  destruct (String.eqb (message err) "") eqn:Hm; [done|].
  intros Hempty. rewrite Hempty in Hm. discriminate.
Qed.

(** *** The three operations on the collection *)

Lemma app_cons_not_self {A : Type} (l rest : list A) (x : A) :
  (l ++ x :: rest)%list ≠ l.
Proof.
  intros Heq. apply (f_equal length) in Heq.
  rewrite length_app in Heq. cbn in Heq. lia.
Qed.

Lemma fetchLessons_trace (cap : Component) (a : Agent) (s : OAuthSession)
    (w : World) :
  agent cap = Some a → session cap = Some s →
  network (fetchLessons cap w).2 = (network w ++ [refresh_request a s])%list.
Proof.
  intros Ha Hs. unfold fetchLessons. rewrite Ha, Hs. async. by answer.
Qed.

Lemma saveLesson_trace (cap : Component) (a : Agent) (s : OAuthSession)
    (d : LessonRecord) (w : World) :
  agent cap = Some a → session cap = Some s →
  ∃ rest : list Request,
    network (saveLesson cap d w).2
    = (network w ++ create_request a s d (Date_now (ext w)).1 :: rest)%list
    ∧ (rest = [] ∨ rest = [refresh_request a s]).
Proof.
  intros Ha Hs. unfold saveLesson. rewrite Ha, Hs. async.
  destruct (Date_now (ext w)) as [t e0]. run.
  destruct (repo_createRecord a (did s) LESSON_COLLECTION
              (lesson_body d (toISOString t)) e0) as [[resp|err] e1]; run.
  - rewrite Ha, Hs. run.
    destruct (repo_listRecords a (did s) LESSON_COLLECTION 100 e1)
      as [[rs|err] e2]; run;
      (exists [refresh_request a s]; split; [|by right]);
      by rewrite <- app_assoc.
  - exists []. split; [done | by left].
Qed.

Lemma deleteLesson_trace (cap : Component) (a : Agent) (s : OAuthSession)
    (rkey : string) (w : World) :
  agent cap = Some a → session cap = Some s →
  ∃ rest : list Request,
    network (deleteLesson cap rkey w).2
    = (network w
       ++ DeleteRecord a (did s) LESSON_COLLECTION rkey :: rest)%list
    ∧ (rest = [] ∨ rest = [refresh_request a s]).
Proof.
  intros Ha Hs. unfold deleteLesson. rewrite Ha, Hs. async.
  destruct (repo_deleteRecord a (did s) LESSON_COLLECTION rkey (ext w))
    as [[[]|err] e1]; run.
  - rewrite Ha, Hs. run.
    destruct (repo_listRecords a (did s) LESSON_COLLECTION 100 e1)
      as [[rs|err] e2]; run;
      (exists [refresh_request a s]; split; [|by right]);
      by rewrite <- app_assoc.
  - exists []. split; [done | by left].
Qed.

(** Without a captured agent the guard returns as without a session. *)
Lemma guard_without_agent (cap : Component) (d : LessonRecord)
    (rkey : string) (w : World) :
  agent cap = None →
  network (saveLesson cap d w).2 = network w
  ∧ network (fetchLessons cap w).2 = network w
  ∧ network (deleteLesson cap rkey w).2 = network w.
Proof.
  intros Ha. unfold saveLesson, fetchLessons, deleteLesson. by rewrite Ha.
Qed.

Lemma guard_without_session (cap : Component) (d : LessonRecord)
    (rkey : string) (w : World) :
  session cap = None →
  network (saveLesson cap d w).2 = network w
  ∧ network (fetchLessons cap w).2 = network w
  ∧ network (deleteLesson cap rkey w).2 = network w.
Proof.
  intros Hs. unfold saveLesson, fetchLessons, deleteLesson. rewrite Hs.
  by destruct (agent cap).
Qed.

(** X6: each of [saveLesson], [fetchLessons] and [deleteLesson] sends
    nothing exactly when the render it comes from held no agent or no
    session; otherwise a request goes out. *)
Theorem request_sent_iff_signed_in (cap : Component) (d : LessonRecord)
    (rkey : string) (w : World) :
  (network (saveLesson cap d w).2 = network w
   ↔ agent cap = None ∨ session cap = None)
  ∧ (network (fetchLessons cap w).2 = network w
     ↔ agent cap = None ∨ session cap = None)
  ∧ (network (deleteLesson cap rkey w).2 = network w
     ↔ agent cap = None ∨ session cap = None).
Proof.
  destruct (agent cap) as [a|] eqn:Ha.
  - destruct (session cap) as [s|] eqn:Hs.
    + destruct (saveLesson_trace cap a s d w Ha Hs) as (r1 & Hn1 & _).
      destruct (deleteLesson_trace cap a s rkey w Ha Hs) as (r2 & Hn2 & _).
      rewrite Hn1, Hn2, (fetchLessons_trace cap a s w Ha Hs).
      repeat split; intros H;
        solve [ by apply app_cons_not_self in H | by destruct H ].
    + destruct (guard_without_session cap d rkey w Hs) as (H1 & H2 & H3).
      rewrite H1, H2, H3. repeat split; auto.
  - destruct (guard_without_agent cap d rkey w Ha) as (H1 & H2 & H3).
    rewrite H1, H2, H3. repeat split; auto.
Qed.

Lemma collection_calls_frame (cap : Component)
    (d : LessonRecord) (rkey : string) (w : World) :
  (same_but_lessons (st w) (st (saveLesson cap d w).2)
   ∧ localStorage (saveLesson cap d w).2 = localStorage w)
  ∧ (same_but_lessons (st w) (st (fetchLessons cap w).2)
     ∧ localStorage (fetchLessons cap w).2 = localStorage w)
  ∧ (same_but_lessons (st w) (st (deleteLesson cap rkey w).2)
     ∧ localStorage (deleteLesson cap rkey w).2 = localStorage w).
Proof.
  unfold same_but_lessons, saveLesson, deleteLesson, fetchLessons.
  destruct (agent cap) as [a|], (session cap) as [s|]; async;
    repeat split; answer; done.
Qed.

(** X7: [saveLesson], [fetchLessons] and [deleteLesson] write no state but
    [lessons]: agent, session, profile, identifier, loading and error are
    as before, and so is [localStorage], however the requests end. *)
Theorem collection_calls_only_write_lessons (cap : Component)
    (d : LessonRecord) (rkey : string) (w : World) :
  (same_but_lessons (st w) (st (saveLesson cap d w).2)
   ∧ localStorage (saveLesson cap d w).2 = localStorage w)
  ∧ (same_but_lessons (st w) (st (fetchLessons cap w).2)
     ∧ localStorage (fetchLessons cap w).2 = localStorage w)
  ∧ (same_but_lessons (st w) (st (deleteLesson cap rkey w).2)
     ∧ localStorage (deleteLesson cap rkey w).2 = localStorage w).
Proof. apply collection_calls_frame. Qed.

(** X8: when the list request fails, [fetchLessons] rejects with that very
    error after writing it to the console, and the state, the lessons with
    it, is what it was. *)
Theorem list_failure_keeps_cache (cap : Component) (a : Agent)
    (s : OAuthSession) (w : World) (err : JsError) (e1 : env) :
  agent cap = Some a → session cap = Some s →
  repo_listRecords a (did s) LESSON_COLLECTION 100 (ext w)
  = (Rejected err, e1) →
  ∃ w' : World,
    fetchLessons cap w = (Rejected err, w')
    ∧ st w' = st w
    ∧ console w'
      = (console w
         ++ [ConsoleError "Error fetching lessons:" (Some err)])%list.
Proof.
  intros Ha Hs Hl.
  destruct (fetchLessons_rejected cap a s w err e1 Ha Hs Hl)
    as (w' & Hrun & Hst & _ & _ & Hc).
  by exists w'.
Qed.

(** X9: when the create-record request is answered and the list request
    after it fails, [saveLesson] rejects with the error of the list
    request although the record was written; the lessons are the former
    ones, and the error is on the console twice, once from [fetchLessons]
    and once from [saveLesson]. *)
Theorem save_rejects_on_refresh_failure (cap : Component) (a : Agent)
    (s : OAuthSession) (d : LessonRecord) (w : World) (t : Z) (e0 e1 e2 : env)
    (resp : CreateResponse) (err : JsError) :
  agent cap = Some a → session cap = Some s → Date_now (ext w) = (t, e0) →
  repo_createRecord a (did s) LESSON_COLLECTION
    (lesson_body d (toISOString t)) e0 = (Fulfilled resp, e1) →
  repo_listRecords a (did s) LESSON_COLLECTION 100 e1 = (Rejected err, e2) →
  ∃ w' : World,
    saveLesson cap d w = (Rejected err, w')
    ∧ st w' = st w ∧ ext w' = e2
    ∧ network w'
      = (network w ++ [create_request a s d t; refresh_request a s])%list
    ∧ console w'
      = (console w
         ++ [ConsoleLog "Lesson saved!"; ConsoleLog "Record URI:";
             ConsoleLog "Record CID:";
             ConsoleError "Error fetching lessons:" (Some err);
             ConsoleError "Error saving lesson:" (Some err)])%list.
Proof.
  intros Ha Hs Hclock Hc Hl. unfold saveLesson. rewrite Ha, Hs. async.
  rewrite Hclock. run. rewrite Hc, Ha, Hs. run. rewrite Hl.
  eexists; split; [reflexivity|]. cbn. by rewrite <- !app_assoc.
Qed.

(** X10: when the delete-record request is answered and the list request
    after it fails, [deleteLesson] settles fulfilled; the lessons are the
    former ones, the deleted record among them if it was there, and the
    error is on the console only. *)
Theorem delete_hides_refresh_failure (cap : Component) (a : Agent)
    (s : OAuthSession) (rkey : string) (w : World) (e1 e2 : env)
    (err : JsError) :
  agent cap = Some a → session cap = Some s →
  repo_deleteRecord a (did s) LESSON_COLLECTION rkey (ext w)
  = (Fulfilled tt, e1) →
  repo_listRecords a (did s) LESSON_COLLECTION 100 e1 = (Rejected err, e2) →
  ∃ w' : World,
    deleteLesson cap rkey w = (Fulfilled tt, w')
    ∧ lessons (st w') = lessons (st w) ∧ ext w' = e2
    ∧ console w'
      = (console w
         ++ [ConsoleError "Error fetching lessons:" (Some err);
             ConsoleError "Error deleting lesson:" (Some err)])%list.
Proof.
  intros Ha Hs Hd Hl.
  destruct (deleteLesson_refresh_rejected cap a s rkey w Ha Hs e1 e2 err
              Hd Hl) as (w' & Hrun & Hst & Hext & _ & Hc).
  exists w'. by rewrite Hst.
Qed.

(** X11: the promise of [deleteLesson], and of the Delete button's
    handler, is fulfilled in every case: from their result a caller cannot
    tell a delete that happened from one that did not. *)
Theorem delete_always_fulfilled (cap : Component) (rkey : string)
    (record : RepoRecord) (w : World) :
  (deleteLesson cap rkey w).1 = Fulfilled tt
  ∧ (onClick_delete cap record w).1 = Fulfilled tt.
Proof.
  split; [apply deleteLesson_never_rejects|].
  unfold onClick_delete.
  destruct (rkey_of_uri (uri record)); [apply deleteLesson_never_rejects|].
  done.
Qed.

(** *** Record keys and record bodies *)

Lemma lacks_false_splits (sep : ascii) (u : string) :
  Js.lacks sep u = false →
  ∃ p k : string, u = p +:+ String sep k ∧ Js.lacks sep k = true.
Proof.
  induction u as [|c rest IH]; [done|]. cbn.
  destruct (Js.lacks sep rest) eqn:Hrest.
  - rewrite andb_true_r. intros Hc. apply negb_false_iff in Hc.
    apply Ascii.eqb_eq in Hc as ->. by exists "", rest.
  - intros _. destruct IH as (p & k & -> & Hk); [done|].
    by exists (String c p), k.
Qed.

Lemma rkey_decomposition (u : string) :
  ∃ k : string,
    rkey_of_uri u = Some k ∧ Js.lacks "/" k = true
    ∧ (u = k ∨ ∃ p : string, u = p +:+ "/" +:+ k).
Proof.
  unfold rkey_of_uri. destruct (Js.lacks "/" u) eqn:Hu.
  - exists u. rewrite (split_lacks _ _ Hu). by repeat split; [|left].
  - destruct (lacks_false_splits _ _ Hu) as (p & k & -> & Hk).
    exists k. rewrite (pop_split_last_segment _ _ _ Hk).
    repeat split; [done|]. right. by exists p.
Qed.

(** X12: [record.uri.split("/").pop()] is defined for every string: it is
    the part after the last slash, or the whole string when there is no
    slash, and holds no slash itself.  So the Delete button always calls
    [deleteLesson], with that key. *)
Theorem rkey_is_slashless_suffix (cap : Component) (record : RepoRecord)
    (w : World) :
  ∃ k : string,
    rkey_of_uri (uri record) = Some k
    ∧ Js.lacks "/" k = true
    ∧ (uri record = k ∨ ∃ p : string, uri record = p +:+ "/" +:+ k)
    ∧ onClick_delete cap record w = deleteLesson cap k w.
Proof.
  destruct (rkey_decomposition (uri record)) as (k & Hk & Hlacks & Hsuffix).
  exists k. repeat split; try done. unfold onClick_delete. by rewrite Hk.
Qed.


(** X14: what [saveLesson] writes reads back: in the body it sends, each
    property of the payload has the payload's value, [notes] is there only
    when given, [$type] is the namespace and [createdAt] the stamp; no
    property occurs twice.  A row rendered from such a record shows the
    payload's lesson id and score, and the notes line only for non-empty
    notes. *)
Theorem saved_body_reads_back (d : LessonRecord) (createdAt u c : string) :
  get_prop "$type" (lesson_body d createdAt) = Some (JStr LESSON_COLLECTION)
  ∧ get_prop "lessonId" (lesson_body d createdAt) = Some (JStr (lessonId d))
  ∧ get_prop "completedAt" (lesson_body d createdAt)
    = Some (JStr (completedAt d))
  ∧ get_prop "score" (lesson_body d createdAt) = Some (JNum (score d))
  ∧ get_prop "notes" (lesson_body d createdAt) = JStr <$> notes d
  ∧ get_prop "createdAt" (lesson_body d createdAt) = Some (JStr createdAt)
  ∧ NoDup (keys (lesson_body d createdAt))
  ∧ row_of {| uri := u; cid := c; value := lesson_body d createdAt |}
    = {| row_key := u;
         row_lessonId := Some (JStr (lessonId d));
         row_score := Some (JNum (score d));
         row_completedAt := Some (JStr (completedAt d));
         row_notes := match notes d with
                      | Some n =>
                          if String.eqb n "" then Nothing else Line (JStr n)
                      | None => Nothing
                      end;
         row_uri := u;
         row_rkey := rkey_of_uri u |}.
Proof.
  rewrite lesson_body_shape. unfold row_of, lesson_props, keys.
  destruct (notes d) as [n|]; cbn; repeat split;
    try (apply (bool_decide_unpack _); by vm_compute).
  by destruct (String.eqb n "").
Qed.

(** *** Calls in sequence *)

Lemma created_well_addressed (s : OAuthSession) (d : LessonRecord) (t : Z) :
  well_addressed (create_request (Agent_of_session s) s d t).
Proof. done. Qed.

Lemma refresh_well_addressed (s : OAuthSession) :
  well_addressed (refresh_request (Agent_of_session s) s).
Proof. done. Qed.

Lemma coherent_same (c c' : Component) :
  same_but_lessons c c' → coherent c → coherent c'.
Proof.
  intros (Ha & Hs & _) Hc s. rewrite Ha, Hs. apply Hc.
Qed.

(** What a call from the latest render of a coherent state adds to the
    journal of requests. *)
Lemma render_call_requests (w : World) (d : LessonRecord) (rkey : string) :
  coherent (st w) →
  (∃ new, network (saveLesson (st w) d w).2 = (network w ++ new)%list
          ∧ Forall well_addressed new)
  ∧ (∃ new, network (fetchLessons (st w) w).2 = (network w ++ new)%list
            ∧ Forall well_addressed new)
  ∧ (∃ new, network (deleteLesson (st w) rkey w).2 = (network w ++ new)%list
            ∧ Forall well_addressed new).
Proof.
  intros Hc. destruct (session (st w)) as [s|] eqn:Hs.
  - pose proof (Hc s Hs) as Ha.
    destruct (saveLesson_trace (st w) _ s d w Ha Hs) as (r1 & Hn1 & Hr1).
    destruct (deleteLesson_trace (st w) _ s rkey w Ha Hs) as (r2 & Hn2 & Hr2).
    rewrite Hn1, Hn2, (fetchLessons_trace (st w) _ s w Ha Hs).
    repeat split; eexists; (split; [reflexivity|]).
    + destruct Hr1 as [-> | ->]; repeat constructor.
    + repeat constructor.
    + destruct Hr2 as [-> | ->]; repeat constructor.
  - destruct (guard_without_session (st w) d rkey w Hs) as (H1 & H2 & H3).
    rewrite H1, H2, H3.
    repeat split; exists []; by rewrite app_nil_r.
Qed.

Lemma perform_keeps (c : Call) (w : World) :
  coherent (st w) →
  coherent (st (perform c w))
  ∧ profile (st (perform c w)) = profile (st w)
  ∧ (loading (st w) = false → loading (st (perform c w)) = false)
  ∧ ∃ new : list Request,
      network (perform c w) = (network w ++ new)%list
      ∧ Forall well_addressed new.
Proof.
  intros Hc.
  pose proof (λ d rkey, collection_calls_frame (st w) d rkey w) as Hframe.
  pose proof (λ d rkey, render_call_requests w d rkey Hc) as Hreq.
  destruct c as [| | |d| |rkey|record|v]; unfold perform, from_render.
  - async.
    destruct (client_init (localStorage w) (ext w)) as [[[r|]|err] e1];
      run; (split; [|repeat split; try done; exists []; by rewrite app_nil_r]);
      try done.
    intros s [= <-]. done.
  - async.
    destruct (client_signInPopup (identifier (st w)) (ext w))
      as [[s|err] e1];
      run; (split; [|repeat split; try done; exists []; by rewrite app_nil_r]).
    + intros s' [= <-]. done.
    + exact Hc.
  - async. split; [done|]. repeat split; try done.
    exists []. by rewrite app_nil_r.
  - destruct (Hframe d "") as ((Hsame & _) & _).
    destruct (Hreq d "") as (Hnew & _).
    split; [by eapply coherent_same|]. destruct Hsame as (_&_&Hp&_&Hl&_).
    split; [done|]. split; [by rewrite Hl|done].
  - destruct (Hframe (Build_LessonRecord "" "" 0 None) "")
      as (_ & (Hsame & _) & _).
    destruct (Hreq (Build_LessonRecord "" "" 0 None) "") as (_ & Hnew & _).
    split; [by eapply coherent_same|]. destruct Hsame as (_&_&Hp&_&Hl&_).
    split; [done|]. split; [by rewrite Hl|done].
  - destruct (Hframe (Build_LessonRecord "" "" 0 None) rkey)
      as (_ & _ & Hsame & _).
    destruct (Hreq (Build_LessonRecord "" "" 0 None) rkey) as (_ & _ & Hnew).
    split; [by eapply coherent_same|]. destruct Hsame as (_&_&Hp&_&Hl&_).
    split; [done|]. split; [by rewrite Hl|done].
  - unfold onClick_delete.
    destruct (rkey_of_uri (uri record)) as [rkey|].
    + destruct (Hframe (Build_LessonRecord "" "" 0 None) rkey)
        as (_ & _ & Hsame & _).
      destruct (Hreq (Build_LessonRecord "" "" 0 None) rkey)
        as (_ & _ & Hnew).
      split; [by eapply coherent_same|]. destruct Hsame as (_&_&Hp&_&Hl&_).
      split; [done|]. split; [by rewrite Hl|done].
    + cbn. repeat split; try done. exists []. by rewrite app_nil_r.
  - unfold setIdentifier. async. repeat split; try done.
    exists []. by rewrite app_nil_r.
Qed.

Lemma perform_all_keeps (cs : list Call) (w : World) :
  coherent (st w) → profile (st w) = None → loading (st w) = false →
  Forall well_addressed (network w) →
  coherent (st (perform_all cs w))
  ∧ profile (st (perform_all cs w)) = None
  ∧ loading (st (perform_all cs w)) = false
  ∧ Forall well_addressed (network (perform_all cs w)).
Proof.
  revert w. induction cs as [|c cs IH]; intros w Hc Hp Hl Hn; [done|].
  destruct (perform_keeps c w Hc) as (Hc' & Hp' & Hl' & new & Hn' & Hnew).
  apply IH; try done.
  - by rewrite Hp'.
  - by apply Hl'.
  - rewrite Hn'. by apply Forall_app.
Qed.

Lemma mount_world_settled (e : env) (ls : gmap string string)
    (cs : list Call) :
  coherent (st (perform_all cs (world_at_mount e ls)))
  ∧ profile (st (perform_all cs (world_at_mount e ls))) = None
  ∧ loading (st (perform_all cs (world_at_mount e ls))) = false
  ∧ Forall well_addressed (network (perform_all cs (world_at_mount e ls))).
Proof. by apply perform_all_keeps. Qed.

(** X15: after any sequence of calls from mount, each run to its end, a
    session in the state comes with the agent built from that very
    session. *)
Theorem agent_matches_session (e : env) (ls : gmap string string)
    (cs : list Call) (s : OAuthSession) :
  session (st (perform_all cs (world_at_mount e ls))) = Some s →
  agent (st (perform_all cs (world_at_mount e ls)))
  = Some (Agent_of_session s).
Proof. apply (mount_world_settled e ls cs). Qed.

(** X16: after any sequence of calls from mount, every request that was
    ever sent is a create, list or delete request through an agent built
    from a session, addressed to the repository of that session's DID and
    to [LESSON_COLLECTION], a list request asking for 100 records. *)
Theorem every_request_well_addressed (e : env) (ls : gmap string string)
    (cs : list Call) :
  Forall well_addressed (network (perform_all cs (world_at_mount e ls))).
Proof. apply (mount_world_settled e ls cs). Qed.

(** X17: after any sequence of calls from mount, the profile is still null
    and no [getProfile] request was ever sent; [loading] is false once a
    call has run to its end. *)
Theorem profile_is_never_fetched (e : env) (ls : gmap string string)
    (cs : list Call) :
  profile (st (perform_all cs (world_at_mount e ls))) = None
  ∧ Forall (λ rq, ¬ is_getProfile rq)
      (network (perform_all cs (world_at_mount e ls)))
  ∧ loading (st (perform_all cs (world_at_mount e ls))) = false.
Proof.
  destruct (mount_world_settled e ls cs) as (_ & Hp & Hl & Hn).
  repeat split; try done.
  eapply Forall_impl; [exact Hn|]. intros [] Hw Hg; cbn in *; done.
Qed.

(** X18: in the tracker view reached by any sequence of calls from mount
    (a session in the state), the guard of the handlers never returns:
    Refresh sends its list request, the Delete button of a record its
    delete request with the key of the record's [uri], and a save its
    create request, all through the agent of that session. *)
Theorem tracker_calls_pass_guard (e : env) (ls : gmap string string)
    (cs : list Call) (s : OAuthSession) :
  session (st (perform_all cs (world_at_mount e ls))) = Some s →
  network (perform ClickRefresh (perform_all cs (world_at_mount e ls)))
  = (network (perform_all cs (world_at_mount e ls))
     ++ [refresh_request (Agent_of_session s) s])%list
  ∧ (∀ (record : RepoRecord) (k : string),
       rkey_of_uri (uri record) = Some k →
       ∃ rest : list Request,
         network (perform (ClickDelete record)
                    (perform_all cs (world_at_mount e ls)))
         = (network (perform_all cs (world_at_mount e ls))
            ++ DeleteRecord (Agent_of_session s) (did s) LESSON_COLLECTION k
               :: rest)%list)
  ∧ (∀ d : LessonRecord,
       ∃ (t : Z) (rest : list Request),
         network (perform (Save d) (perform_all cs (world_at_mount e ls)))
         = (network (perform_all cs (world_at_mount e ls))
            ++ create_request (Agent_of_session s) s d t :: rest)%list).
Proof.
  intros Hs.
  destruct (mount_world_settled e ls cs) as (Hc & _).
  pose proof (Hc s Hs) as Ha.
  set (w := perform_all cs (world_at_mount e ls)) in *.
  unfold perform, from_render. repeat split.
  - by apply fetchLessons_trace.
  - intros record k Hk. unfold onClick_delete. rewrite Hk.
    destruct (deleteLesson_trace (st w) _ s k w Ha Hs) as (rest & Hn & _).
    by exists rest.
  - intros d.
    destruct (saveLesson_trace (st w) _ s d w Ha Hs) as (rest & Hn & _).
    by eexists _, rest.
Qed.

(** *** Logout, login and what is shown *)

(** X19: after [handleLogout], the login form is shown, with the
    identifier and error of before, and no call from that render sends a
    request: save, refresh and both ways to delete leave the journal of
    requests as it was. *)
Theorem nothing_sent_after_logout (w : World) (d : LessonRecord)
    (rkey : string) (record : RepoRecord) :
  render (st (perform ClickLogout w))
  = LoginView (identifier (st w))
      (if String.eqb (error (st w)) "" then None else Some (error (st w)))
      (loading (st w))
      (if loading (st w) then "Logging in..." else "Login")
  ∧ network (perform (Save d) (perform ClickLogout w)) = network w
  ∧ network (perform ClickRefresh (perform ClickLogout w)) = network w
  ∧ network (perform (Delete rkey) (perform ClickLogout w)) = network w
  ∧ network (perform (ClickDelete record) (perform ClickLogout w))
    = network w.
Proof.
  set (w1 := perform ClickLogout w).
  assert (session (st w1) = None) as Hs by done.
  assert (network w1 = network w) as Hn by done.
  split; [done|]. unfold perform, from_render, onClick_delete.
  destruct (guard_without_session (st w1) d rkey w1 Hs) as (H1 & H2 & H3).
  rewrite H1, H2, H3, Hn. repeat split.
  destruct (rkey_of_uri (uri record)) as [k|]; [|done].
  destruct (guard_without_session (st w1) d k w1 Hs) as (_ & _ & H4).
  by rewrite H4.
Qed.

(** X20: a [fetchLessons] created by a signed-in render and run after
    [handleLogout] still sends its list request through the old agent,
    and writes the answer into the lessons of the state, whose session is
    null by then. *)
Theorem stale_refresh_after_logout (cap : Component) (a : Agent)
    (s : OAuthSession) (w : World) (rs : list RepoRecord) (e1 : env) :
  agent cap = Some a → session cap = Some s →
  repo_listRecords a (did s) LESSON_COLLECTION 100 (ext w)
  = (Fulfilled rs, e1) →
  session (st (handleLogout w).2) = None
  ∧ network (fetchLessons cap (handleLogout w).2).2
    = (network w ++ [refresh_request a s])%list
  ∧ lessons (st (fetchLessons cap (handleLogout w).2).2) = rs
  ∧ session (st (fetchLessons cap (handleLogout w).2).2) = None.
Proof.
  intros Ha Hs Hl.
  set (w1 := (handleLogout w).2).
  assert (ext w1 = ext w) as Hext by done.
  rewrite <- Hext in Hl.
  destruct (fetchLessons_fulfilled cap a s w1 rs e1 Ha Hs Hl)
    as (w' & -> & Hls & _ & _ & Hn & _ & _ & Hsess).
  cbn. by rewrite Hn, Hsess.
Qed.

(** X21: neither [handleLogout] nor [handleLogin] writes the lessons: after
    a logout and a login fulfilled with another session, the tracker is
    shown for the new DID with the lessons that were in the state before
    the logout. *)
Theorem lessons_survive_relogin (cap : Component) (w : World)
    (s : OAuthSession) (e1 : env) :
  client_signInPopup (identifier cap) (ext w) = (Fulfilled s, e1) →
  lessons (st (handleLogout w).2) = lessons (st w)
  ∧ lessons (st (handleLogin cap (handleLogout w).2).2) = lessons (st w)
  ∧ render (st (handleLogin cap (handleLogout w).2).2)
    = LessonsView (did s) (length (lessons (st w)))
        (if Nat.eqb (length (lessons (st w))) 0 then NoLessonsYet
         else Rows (row_of <$> lessons (st w))).
Proof.
  intros Hsign. split; [done|].
  set (w1 := (handleLogout w).2).
  assert (ext w1 = ext w) as Hext by done.
  rewrite <- Hext in Hsign.
  destruct (login_session_stored cap w1 s e1 Hsign)
    as (w' & -> & Hs & _ & Hls).
  cbn. unfold render. by rewrite Hs, Hls.
Qed.

Lemma handleLogout_world (w : World) :
  handleLogout w
  = (Fulfilled tt,
     {| st := {| agent := Some (Agent_of_service "https://bsky.social");
                 session := None; profile := profile (st w);
                 lessons := lessons (st w); identifier := identifier (st w);
                 loading := loading (st w); error := error (st w) |};
        ext := ext w;
        localStorage := delete "bsky-session" (localStorage w);
        console := console w; network := network w |}).
Proof. reflexivity. Qed.

(** X22: logging out twice is logging out once: the second [handleLogout]
    leaves the world the first one left. *)
Theorem logout_twice (w : World) :
  handleLogout (handleLogout w).2 = handleLogout w.
Proof.
  rewrite !handleLogout_world.
  cbn [snd st ext localStorage console network agent session profile
       lessons identifier loading error].
  by rewrite delete_delete_eq.
Qed.

(** X23: a login that fails from the login form shows the form again with
    an error line, the message of the error or "Login failed" when that is
    empty, and the button enabled and labelled "Login". *)
Theorem failed_login_shows_error (w : World) (err : JsError) (e1 : env) :
  session (st w) = None →
  client_signInPopup (identifier (st w)) (ext w) = (Rejected err, e1) →
  render (st (perform SubmitLogin w))
  = LoginView (identifier (st w))
      (Some (if String.eqb (message err) "" then "Login failed"
             else message err))
      false "Login".
Proof.
  intros Hs Hsign. unfold perform, from_render, render. async.
  rewrite Hsign. run. rewrite Hs.
  by destruct (String.eqb (message err) "") eqn:Hm; [|rewrite Hm].
Qed.

(** C9, as the code has it: [handleLogout] clears the session state and
    removes the [localStorage] key "bsky-session", and that is all it does
    about persistence: it calls neither the OAuth client nor the session,
    so the outside is as before.  For an OAuth client that does not resume
    from that key, [client.init()] after the logout returns exactly what it
    returned before it: a session the client had persisted is resumed
    again. *)
Theorem logout_misses_client_store (w : World) :
  (∀ ls : gmap string string,
     client_init (delete "bsky-session" ls) (ext w)
     = client_init ls (ext w)) →
  ∃ w' : World,
    handleLogout w = (Fulfilled tt, w')
    ∧ session (st w') = None
    ∧ localStorage w' !! "bsky-session" = None
    ∧ ext w' = ext w
    ∧ network w' = network w
    ∧ (client_init_call w').1 = (client_init_call w).1.
Proof.
  intros Hkey. rewrite handleLogout_world. eexists; split; [reflexivity|].
  unfold client_init_call, await.
  cbn [st ext localStorage console network session].
  rewrite Hkey. repeat split; [apply lookup_delete_eq|].
  by destruct (client_init (localStorage w) (ext w)).
Qed.

End Handlers.

(** ** The component run on the reference backend *)

Import Demo.

Example save_then_list :
  saveLesson signed_in lesson1 (world_of signed_in server_alice)
  = (Fulfilled (Some {| data_uri := uri record1; data_cid := "bafy1" |}),
     {| st := {| agent := Some alice_agent; session := Some alice;
                 profile := None; lessons := [record1];
                 identifier := "user.example.social"; loading := false;
                 error := "" |};
        ext := server_one; localStorage := ∅;
        console := [ConsoleLog "Lesson saved!"; ConsoleLog "Record URI:";
                    ConsoleLog "Record CID:"; ConsoleLog "Fetched lessons:"];
        network := [create_request alice_agent alice lesson1 1704067200000;
                    refresh_request alice_agent alice] |}).
Proof. reflexivity. Qed.

Example delete_then_list :
  lessons (st (deleteLesson signed_in "1" (world_of signed_in server_one)).2)
  = [].
Proof. reflexivity. Qed.

(** *** The theorems at concrete inputs *)

Lemma unauthenticated_calls_return_witness :
  session initial_component = None
  ∧ (∃ w' : World,
       deleteLesson initial_component "1" (world_of signed_in server_one)
       = (Fulfilled tt, w')
       ∧ untouched (world_of signed_in server_one) w')
  ∧ (∃ w' : World,
       fetchLessons initial_component (world_of signed_in server_one)
       = (Fulfilled None, w')
       ∧ untouched (world_of signed_in server_one) w'
       ∧ console w' = [ConsoleError "Not logged in" None])
  ∧ ∃ w' : World,
      saveLesson initial_component lesson1 (world_of signed_in server_one)
      = (Fulfilled None, w')
      ∧ untouched (world_of signed_in server_one) w'
      ∧ console w' = [ConsoleError "Not logged in" None].
Proof.
  pose proof (unauthenticated_calls_return initial_component
                (world_of signed_in server_one) eq_refl)
    as (Hsave & Hfetch & Hdelete).
  split; [reflexivity|].
  split; [apply Hdelete|]. split; [exact Hfetch | apply Hsave].
Defined.

Lemma mutation_refreshes_cache_witness :
  agent signed_in = Some alice_agent ∧ session signed_in = Some alice
  ∧ (∃ rs : list RepoRecord,
       repo_listRecords alice_agent (did alice) LESSON_COLLECTION 100
         server_one = (Fulfilled rs, server_one)
       ∧ lessons
           (st (saveLesson signed_in lesson1
                  (world_of signed_in server_alice)).2) = rs)
  ∧ (∃ w' : World,
       deleteLesson signed_in "1" (world_of signed_in server_one)
       = (Fulfilled tt, w')
       ∧ lessons (st w') = []).
Proof.
  pose proof (mutation_refreshes_cache signed_in alice_agent alice) as Hthm.
  split; [reflexivity|]. split; [reflexivity|]. split.
  - destruct (proj1 (Hthm (world_of signed_in server_alice) eq_refl eq_refl)
                lesson1 _ _ save_then_list)
      as (t & e0 & e1 & resp & rs & Hclock & Hc & _ & Hl & Hls & _).
    injection Hclock as <- <-. injection Hc as _ <-.
    exists rs. split; [exact Hl | exact Hls].
  - destruct (proj2 (Hthm (world_of signed_in server_one) eq_refl eq_refl)
                "1" server_alice_emptied server_alice_emptied []
                eq_refl eq_refl)
      as (w' & Hrun & Hls & _).
    by exists w'.
Defined.

Lemma failed_delete_is_swallowed_witness :
  agent signed_in = Some alice_agent ∧ session signed_in = Some alice
  ∧ repo_deleteRecord alice_agent (did alice) LESSON_COLLECTION "1"
      server_delete_down = (Rejected transport_error, server_delete_down)
  ∧ ∃ w' : World,
      deleteLesson signed_in "1" (world_of signed_in server_delete_down)
      = (Fulfilled tt, w')
      ∧ lessons (st w') = []
      ∧ console w'
        = [ConsoleError "Error deleting lesson:" (Some transport_error)]
      ∧ network w'
        = [DeleteRecord alice_agent "did:plc:xyz" LESSON_COLLECTION "1"].
Proof.
  split; [reflexivity|]. split; [reflexivity|]. split; [reflexivity|].
  exact (failed_delete_is_swallowed signed_in alice_agent alice "1"
           (world_of signed_in server_delete_down) transport_error
           server_delete_down eq_refl eq_refl eq_refl).
Defined.

Lemma create_sends_tagged_body_witness :
  agent signed_in = Some alice_agent ∧ session signed_in = Some alice
  ∧ Date_now server_alice = (1704067200000, server_alice)
  ∧ toISOString 1704067200000 = "2024-01-01T00:00:00.000Z"
  ∧ ∃ rest : list Request,
      network (saveLesson signed_in lesson1
                 (world_of signed_in server_alice)).2
      = CreateRecord alice_agent "did:plc:xyz" "app.piano.user.lesson"
          [("$type", JStr "app.piano.user.lesson");
           ("lessonId", JStr "lesson-1");
           ("completedAt", JStr "2024-01-01T00:00:00Z");
           ("score", JNum 87);
           ("createdAt", JStr "2024-01-01T00:00:00.000Z")]
        :: rest.
Proof.
  split; [reflexivity|]. split; [reflexivity|]. split; [reflexivity|].
  split; [reflexivity|].
  exact (create_sends_tagged_body signed_in alice_agent alice lesson1
           (world_of signed_in server_alice) 1704067200000 server_alice
           eq_refl eq_refl eq_refl).
Defined.

Lemma failed_create_leaves_cache_witness :
  agent signed_in = Some alice_agent ∧ session signed_in = Some alice
  ∧ Date_now server_create_down = (1704067200000, server_create_down)
  ∧ (saveLesson signed_in lesson1 (world_of signed_in server_create_down)).1
    = Rejected transport_error
  ∧ st (saveLesson signed_in lesson1
          (world_of signed_in server_create_down)).2 = signed_in.
Proof.
  split; [reflexivity|]. split; [reflexivity|]. split; [reflexivity|].
  destruct (proj1 (failed_create_leaves_cache signed_in alice_agent alice
                     lesson1 (world_of signed_in server_create_down)
                     1704067200000 server_create_down
                     eq_refl eq_refl eq_refl)
              transport_error server_create_down eq_refl)
    as (Hout & Hst & _).
  split; [exact Hout | exact Hst].
Defined.

Lemma delete_sends_key_verbatim_witness :
  agent signed_in = Some alice_agent ∧ session signed_in = Some alice
  ∧ (∃ rest : list Request,
       network (deleteLesson signed_in "1"
                  (world_of signed_in server_one)).2
       = DeleteRecord alice_agent "did:plc:xyz" LESSON_COLLECTION "1" :: rest)
  ∧ onClick_delete signed_in record1 (world_of signed_in server_one)
    = deleteLesson signed_in "1" (world_of signed_in server_one).
Proof.
  pose proof (delete_sends_key_verbatim signed_in alice_agent alice
                (world_of signed_in server_one) eq_refl eq_refl)
    as (Hsend & Hclick).
  split; [reflexivity|]. split; [reflexivity|]. split.
  - exact (Hsend "1").
  - exact (Hclick record1 "at://did:plc:xyz/app.piano.user.lesson" "1"
             eq_refl eq_refl).
Defined.

Lemma list_replaces_cache_witness :
  agent signed_in = Some alice_agent ∧ session signed_in = Some alice
  ∧ network (fetchLessons signed_in (world_of signed_in server_one)).2
    = [ListRecords alice_agent "did:plc:xyz" LESSON_COLLECTION 100]
  ∧ (fetchLessons signed_in (world_of signed_in server_one)).1
    = Fulfilled (Some [record1])
  ∧ lessons (st (fetchLessons signed_in (world_of signed_in server_one)).2)
    = [record1].
Proof.
  pose proof (list_replaces_cache signed_in alice_agent alice
                (world_of signed_in server_one) eq_refl eq_refl)
    as (Hsent & Hanswered).
  split; [reflexivity|]. split; [reflexivity|]. split; [exact Hsent|].
  exact (Hanswered [record1] server_one eq_refl).
Defined.

Lemma resume_skips_profile_witness :
  client_init ∅ server_alice
  = (Fulfilled (Some {| init_session := alice; init_state := None |}),
     server_alice)
  ∧ ∃ w' : World,
      initAuth initial_component (world_at_mount server_alice ∅)
      = (Fulfilled tt, w')
      ∧ session (st w') = Some alice
      ∧ agent (st w') = Some alice_agent
      ∧ profile (st w') = None
      ∧ network w' = [].
Proof.
  split; [reflexivity|].
  destruct (resume_skips_profile (B := backend)
              (world_at_mount (B := backend) server_alice ∅)
              {| init_session := alice; init_state := None |} server_alice
              eq_refl)
    as (w' & Hrun & Hs & Ha & _ & Hp & Hn & _).
  exists w'. repeat split; try assumption. by apply Hp.
Defined.

(** *** Where the code departs from what is claimed of it *)

(** C1, as claimed, fails: with no session, each of the three operations
    is fulfilled, none rejects; the world after [deleteLesson] is the world
    before it, console included.  And with no session in the state, after
    [handleLogout], a [fetchLessons] that a signed-in render created still
    sends its request. *)
Lemma unauthenticated_call_raises_nothing :
  session (st (world_of initial_component server_alice)) = None
  ∧ ¬ (∃ e : JsError,
         (from_render (λ c, saveLesson c lesson1)
            (world_of initial_component server_alice)).1 = Rejected e)
  ∧ ¬ (∃ e : JsError,
         (from_render fetchLessons
            (world_of initial_component server_alice)).1 = Rejected e)
  ∧ ¬ (∃ e : JsError,
         (from_render (λ c, deleteLesson c "1")
            (world_of initial_component server_alice)).1 = Rejected e)
  ∧ from_render (λ c, deleteLesson c "1")
      (world_of initial_component server_alice)
    = (Fulfilled tt, world_of initial_component server_alice)
  ∧ session (st (handleLogout (world_of signed_in server_one)).2) = None
  ∧ network
      (fetchLessons signed_in
         (handleLogout (world_of signed_in server_one)).2).2
    = [ListRecords alice_agent "did:plc:xyz" LESSON_COLLECTION 100].
Proof.
  split; [reflexivity|].
  repeat split; try (intros [e He]; vm_compute in He; discriminate).
Qed.

(** C7, as claimed, fails: given the full address of a stored record,
    [deleteLesson] sends the address itself as the record key, not its
    last segment, and the record is still listed afterwards. *)
Lemma delete_keeps_full_address :
  rkey_of_uri (uri record1) = Some "1"
  ∧ network (deleteLesson signed_in (uri record1)
               (world_of signed_in server_one)).2
    = [DeleteRecord alice_agent "did:plc:xyz" LESSON_COLLECTION
         "at://did:plc:xyz/app.piano.user.lesson/1";
       ListRecords alice_agent "did:plc:xyz" LESSON_COLLECTION 100]
  ∧ (DeleteRecord alice_agent "did:plc:xyz" LESSON_COLLECTION "1"
     ∉ network (deleteLesson signed_in (uri record1)
                  (world_of signed_in server_one)).2)
  ∧ lessons (st (deleteLesson signed_in (uri record1)
                   (world_of signed_in server_one)).2) = [record1].
Proof.
  split; [reflexivity|]. split; [reflexivity|]. split; [|reflexivity].
  intros Hin. vm_compute in Hin.
  apply elem_of_cons in Hin as [Heq|Hin]; [discriminate|].
  apply elem_of_cons in Hin as [Heq|Hin]; [discriminate|].
  by apply elem_of_nil in Hin.
Qed.

(** On the reference backend, whose OAuth client keeps the session in a
    store of its own: after [handleLogout] the session state is null and
    the key is gone, yet [client.init()] returns the session again and the
    next mount is signed in. *)
Lemma logout_then_resume_restores :
  session (st (handleLogout (world_with_key signed_in server_alice)).2) = None
  ∧ localStorage (handleLogout (world_with_key signed_in server_alice)).2
    !! "bsky-session" = None
  ∧ (client_init_call
       (handleLogout (world_with_key signed_in server_alice)).2).1
    = Fulfilled (Some {| init_session := alice; init_state := None |})
  ∧ session
      (st (initAuth initial_component
             (world_at_mount
                (ext (handleLogout
                        (world_with_key signed_in server_alice)).2)
                (localStorage
                   (handleLogout
                      (world_with_key signed_in server_alice)).2))).2)
    = Some alice.
Proof. repeat split; vm_compute; reflexivity. Qed.

(** *** The further properties at concrete inputs *)

Lemma resume_without_session_witness :
  client_init ∅ server0 = (Fulfilled None, server0)
  ∧ ∃ w' : World,
      initAuth initial_component (world_at_mount server0 ∅)
      = (Fulfilled tt, w')
      ∧ st w' = initial_component ∧ console w' = [] ∧ network w' = [].
Proof.
  split; [reflexivity|].
  destruct (resume_without_session (B := backend) initial_component
              (world_at_mount (B := backend) server0 ∅) server0 eq_refl)
    as (w' & Hrun & Hst & Hc & Hn & _).
  by exists w'.
Defined.

Lemma resume_failure_is_logged_witness :
  client_init (Backend := Offline.backend) ∅ tt = (Rejected Offline.down, tt)
  ∧ ∃ w' : World,
      initAuth (B := Offline.backend) initial_component
        (world_at_mount (B := Offline.backend) tt ∅)
      = (Fulfilled tt, w')
      ∧ st w' = initial_component
      ∧ console w'
        = [ConsoleError "Auth initialization failed:" (Some Offline.down)].
Proof.
  split; [reflexivity|].
  destruct (resume_failure_is_logged (B := Offline.backend)
              initial_component
              (world_at_mount (B := Offline.backend) tt ∅)
              Offline.down tt eq_refl)
    as (w' & Hrun & Hst & Hc & _).
  by exists w'.
Defined.

Lemma login_stores_session_witness :
  client_signInPopup "user.example.social" server0
  = (Fulfilled alice, server_alice)
  ∧ ∃ w' : World,
      handleLogin Cases.typed (world_of Cases.typed server0)
      = (Fulfilled tt, w')
      ∧ session (st w') = Some alice ∧ agent (st w') = Some alice_agent
      ∧ loading (st w') = false ∧ ext w' = server_alice.
Proof.
  split; [reflexivity|].
  destruct (login_stores_session Cases.typed (world_of Cases.typed server0)
              alice server_alice eq_refl)
    as (w' & Hrun & Hs & Ha & Hl & _ & _ & _ & _ & _ & Hext).
  by exists w'.
Defined.

Lemma login_failure_keeps_session_witness :
  client_signInPopup "whoisryosuke.bsky.social" server0
  = (Rejected {| message := "Failed to resolve identity" |}, server0)
  ∧ ∃ w' : World,
      handleLogin initial_component (world_of initial_component server0)
      = (Fulfilled tt, w')
      ∧ session (st w') = None
      ∧ error (st w') = "Failed to resolve identity"
      ∧ loading (st w') = false.
Proof.
  split; [reflexivity|].
  destruct (login_failure_keeps_session initial_component
              (world_of initial_component server0)
              {| message := "Failed to resolve identity" |} server0 eq_refl)
    as (w' & Hrun & Hs & _ & He & _ & Hl & _).
  by exists w'.
Defined.

Lemma list_failure_keeps_cache_witness :
  repo_listRecords alice_agent (did alice) LESSON_COLLECTION 100
    Cases.server_list_down
  = (Rejected transport_error, Cases.server_list_down)
  ∧ ∃ w' : World,
      fetchLessons Cases.showing_one
        (world_of Cases.showing_one Cases.server_list_down)
      = (Rejected transport_error, w')
      ∧ lessons (st w') = [record1].
Proof.
  split; [reflexivity|].
  destruct (list_failure_keeps_cache Cases.showing_one alice_agent alice
              (world_of Cases.showing_one Cases.server_list_down)
              transport_error Cases.server_list_down
              eq_refl eq_refl eq_refl)
    as (w' & Hrun & Hst & _).
  exists w'. by rewrite Hst.
Defined.

Lemma save_rejects_on_refresh_failure_witness :
  (saveLesson Cases.showing_one lesson1
     (world_of Cases.showing_one Cases.server_list_down)).1
  = Rejected transport_error
  ∧ lessons
      (st (saveLesson Cases.showing_one lesson1
             (world_of Cases.showing_one Cases.server_list_down)).2)
    = [record1]
  ∧ length
      (records
         (ext (saveLesson Cases.showing_one lesson1
                 (world_of Cases.showing_one Cases.server_list_down)).2))
    = 2%nat.
Proof.
  edestruct (save_rejects_on_refresh_failure Cases.showing_one alice_agent
               alice lesson1
               (world_of Cases.showing_one Cases.server_list_down))
    as (w' & Hrun & Hst & Hext & _);
    [reflexivity | reflexivity | reflexivity | reflexivity | reflexivity |].
  rewrite Hrun. cbn. by rewrite Hst, Hext.
Defined.

Lemma delete_hides_refresh_failure_witness :
  (deleteLesson Cases.showing_one "1"
     (world_of Cases.showing_one Cases.server_list_down)).1 = Fulfilled tt
  ∧ lessons
      (st (deleteLesson Cases.showing_one "1"
             (world_of Cases.showing_one Cases.server_list_down)).2)
    = [record1]
  ∧ records
      (ext (deleteLesson Cases.showing_one "1"
              (world_of Cases.showing_one Cases.server_list_down)).2)
    = [].
Proof.
  edestruct (delete_hides_refresh_failure Cases.showing_one alice_agent
               alice "1"
               (world_of Cases.showing_one Cases.server_list_down))
    as (w' & Hrun & Hls & Hext & _);
    [reflexivity | reflexivity | reflexivity | reflexivity |].
  rewrite Hrun. cbn. by rewrite Hls, Hext.
Defined.


Lemma agent_matches_session_witness :
  session (st (perform_all [Mount; ClickRefresh]
                 (world_at_mount server_one ∅))) = Some alice
  ∧ agent (st (perform_all [Mount; ClickRefresh]
                 (world_at_mount server_one ∅))) = Some alice_agent.
Proof.
  split; [reflexivity|].
  exact (agent_matches_session (B := backend) server_one ∅
           [Mount; ClickRefresh] alice eq_refl).
Defined.

Lemma tracker_calls_pass_guard_witness :
  session (st (perform_all [Mount] (world_at_mount server_one ∅)))
  = Some alice
  ∧ network (perform ClickRefresh
               (perform_all [Mount] (world_at_mount server_one ∅)))
    = [refresh_request alice_agent alice]
  ∧ ∃ rest : list Request,
      network (perform (ClickDelete record1)
                 (perform_all [Mount] (world_at_mount server_one ∅)))
      = DeleteRecord alice_agent "did:plc:xyz" LESSON_COLLECTION "1" :: rest.
Proof.
  split; [reflexivity|].
  destruct (tracker_calls_pass_guard (B := backend) server_one ∅ [Mount]
              alice eq_refl) as (Hrefresh & Hdelete & _).
  split; [exact Hrefresh|].
  exact (Hdelete record1 "1" eq_refl).
Defined.

Lemma stale_refresh_after_logout_witness :
  session (st (handleLogout (world_of signed_in server_one)).2) = None
  ∧ lessons
      (st (fetchLessons signed_in
             (handleLogout (world_of signed_in server_one)).2).2)
    = [record1].
Proof.
  destruct (stale_refresh_after_logout signed_in alice_agent alice
              (world_of signed_in server_one) [record1] server_one
              eq_refl eq_refl eq_refl) as (Hs & _ & Hls & _).
  split; [exact Hs | exact Hls].
Defined.

Lemma lessons_survive_relogin_witness :
  client_signInPopup "user.example.social" server0
  = (Fulfilled alice, server_alice)
  ∧ render
      (st (handleLogin Cases.typed
             (handleLogout (world_of Cases.showing_one server0)).2).2)
    = LessonsView "did:plc:xyz" 1 (Rows [row_of record1]).
Proof.
  split; [reflexivity|].
  destruct (lessons_survive_relogin Cases.typed
              (world_of Cases.showing_one server0) alice server_alice
              eq_refl) as (_ & _ & Hview).
  exact Hview.
Defined.

Lemma failed_login_shows_error_witness :
  session (st (world_of initial_component server0)) = None
  ∧ render (st (perform SubmitLogin (world_of initial_component server0)))
    = LoginView "whoisryosuke.bsky.social"
        (Some "Failed to resolve identity") false "Login".
Proof.
  split; [reflexivity|].
  exact (failed_login_shows_error (world_of initial_component server0)
           {| message := "Failed to resolve identity" |} server0
           eq_refl eq_refl).
Defined.

(** C2, as the code has it: alice deletes her one lesson; the
    delete-record request is answered and the list request after it is
    dropped.  The promise of [deleteLesson] is fulfilled and the record is
    gone from the server, yet the lessons still hold it: they are not what
    a fresh list request returns, which is the empty sequence, as a
    [fetchLessons] run next shows. *)
Theorem delete_leaves_stale_cache :
  (deleteLesson (B := Flaky.backend) Cases.showing_one "1"
     Flaky.one_outage).1 = Fulfilled tt
  ∧ network (deleteLesson (B := Flaky.backend) Cases.showing_one "1"
               Flaky.one_outage).2
    = [DeleteRecord alice_agent "did:plc:xyz" LESSON_COLLECTION "1";
       ListRecords alice_agent "did:plc:xyz" LESSON_COLLECTION 100]
  ∧ records (ext (deleteLesson (B := Flaky.backend) Cases.showing_one "1"
                    Flaky.one_outage).2).1 = []
  ∧ lessons (st (deleteLesson (B := Flaky.backend) Cases.showing_one "1"
                   Flaky.one_outage).2) = [record1]
  ∧ (repo_listRecords (Backend := Flaky.backend) alice_agent (did alice)
       LESSON_COLLECTION 100
       (ext (deleteLesson (B := Flaky.backend) Cases.showing_one "1"
               Flaky.one_outage).2)).1 = Fulfilled []
  ∧ lessons
      (st (fetchLessons (B := Flaky.backend) Cases.showing_one
             (deleteLesson (B := Flaky.backend) Cases.showing_one "1"
                Flaky.one_outage).2).2) = [].
Proof. repeat split. Qed.

Lemma logout_misses_client_store_witness :
  (∀ ls : gmap string string,
     client_init (delete "bsky-session" ls) server_alice
     = client_init ls server_alice)
  ∧ ∃ w' : World,
      handleLogout (world_with_key signed_in server_alice)
      = (Fulfilled tt, w')
      ∧ session (st w') = None
      ∧ localStorage w' !! "bsky-session" = None
      ∧ (client_init_call w').1
        = Fulfilled (Some {| init_session := alice; init_state := None |}).
Proof.
  split; [by intros ls|].
  destruct (logout_misses_client_store (B := backend)
              (world_with_key signed_in server_alice) (λ ls, eq_refl))
    as (w' & Hrun & Hs & Hkey & _ & _ & Hresume).
  exists w'.
  repeat split; [exact Hrun | exact Hs | exact Hkey | exact Hresume].
Defined.
